(** * Customer dashboard: session, synchronisation and view derivation

    A shallow embedding of [src/types.ts] and of the state logic of the
    [App] component in [src/App.tsx]: the data model, the derived views
    ([filteredCustomers], [stats]), the notification timer ([showNotify]),
    the authentication effect ([initializeAuth], the [onAuthStateChange]
    handler), the customer effect, the user actions ([handleAuth],
    [handleSaveCustomer], [handleDelete], [handleLogout], [loadCustomers]),
    the inline handlers of the form and the CSV export ([exportCSV]). *)

From Stdlib Require Import List String Ascii Bool Arith PeanoNat Lia.
Import ListNotations.
Open Scope string_scope.

(** ** Data model ([src/types.ts]) *)

Inductive CustomerStatus : Type :=
| ACTIVE     (* 'ativo' *)
| INACTIVE   (* 'inativo' *)
| PENDING.   (* 'pendente' *)

Definition CustomerStatus_eqb (a b : CustomerStatus) : bool :=
  match a, b with
  | ACTIVE, ACTIVE | INACTIVE, INACTIVE | PENDING, PENDING => true
  | _, _ => false
  end.

Module Customer.
Record t : Type := mk {
  id : string;
  empresa_id : string;
  name : string;
  phone : string;
  email : string;
  registration_date : string;
  status : CustomerStatus;
  observations : string;
  is_deleted : bool;
  created_at : string;
  created_by : string
}.
End Customer.

Module UserProfile.
Record t : Type := mk {
  id : string;
  email : string;
  company_name : string;
  responsible_name : string;
  accepted_terms : bool;
  created_at : string
}.
End UserProfile.

Module AuthState.
Record t : Type := mk {
  isLoggedIn : bool;
  profile : option UserProfile.t;
  loading : bool
}.
End AuthState.

Module AppStats.
Record t : Type := mk {
  total : nat;
  active : nat;
  inactive : nat
}.
End AppStats.

(** ** String primitives of the host language

    [String.prototype.includes] is a substring test.  [toLowerCase] below
    is the host's [String.prototype.toLowerCase] restricted to ASCII text:
    it folds [A-Z] and leaves every other byte as it is, so it agrees with
    the host on ASCII strings only (the host also folds letters outside
    ASCII and lowers a word-final sigma by context).  Properties that
    depend on how letters are folded are stated over an arbitrary lowering
    function, see [filteredCustomersWith]. *)

Definition lower_ascii (c : ascii) : ascii :=
  let n := nat_of_ascii c in
  if ((65 <=? n) && (n <=? 90))%nat then ascii_of_nat (n + 32) else c.

Fixpoint toLowerCase (s : string) : string :=
  match s with
  | EmptyString => EmptyString
  | String c s' => String (lower_ascii c) (toLowerCase s')
  end.

Fixpoint includes (s needle : string) : bool :=
  prefix needle s ||
  match s with
  | EmptyString => false
  | String _ s' => includes s' needle
  end.

(** ** View derivation ([useMemo] blocks of [App])

    [c.name?.toLowerCase()] and [c.phone?.includes] guard against a null
    field; [Customer.name] and [Customer.phone] are declared [string], on
    which [?.] is plain member access. *)

Definition filteredCustomers (customers : list Customer.t) (search : string)
  : list Customer.t :=
  filter (fun c =>
            includes (toLowerCase (Customer.name c)) (toLowerCase search)
            || includes (Customer.phone c) search)
         customers.

(** The same filter with the host's lowering function as a parameter;
    [filteredCustomers] is its instance at the ASCII [toLowerCase]. *)
Definition filteredCustomersWith (lower : string -> string)
  (customers : list Customer.t) (search : string) : list Customer.t :=
  filter (fun c =>
            includes (lower (Customer.name c)) (lower search)
            || includes (Customer.phone c) search)
         customers.

Definition stats (customers : list Customer.t) : AppStats.t :=
  {| AppStats.total := List.length customers;
     AppStats.active :=
       List.length (filter (fun c => CustomerStatus_eqb (Customer.status c) ACTIVE)
                      customers);
     AppStats.inactive :=
       List.length (filter (fun c => negb (CustomerStatus_eqb (Customer.status c) ACTIVE))
                      customers) |}.

(** Number of records of [L] carrying status [s], counted independently
    of [stats]. *)
Definition CustomerStatus_eq_dec (a b : CustomerStatus) : {a = b} + {a <> b}.
Proof. decide equality. Defined.

Definition count_status (s : CustomerStatus) (L : list Customer.t) : nat :=
  count_occ CustomerStatus_eq_dec (map Customer.status L) s.

(** ** Component state ([useState] cells of [App]) *)

Inductive NotificationType : Type := success | error.

Module Notification.
Record t : Type := mk {
  message : string;
  type : NotificationType
}.
End Notification.

Inductive AuthMode : Type := login | signup.

Module AuthForm.
Record t : Type := mk {
  email : string;
  password : string;
  companyName : string;
  responsibleName : string;
  terms : bool
}.
End AuthForm.

(** Fields of the customer form read through [formData.get]. *)
Module FormData.
Record t : Type := mk {
  name : string;
  phone : string;
  email : string;
  status : CustomerStatus;
  date : string;
  observations : string
}.
End FormData.

(** The [Partial<Customer>] payload built by [handleSaveCustomer]; [id] is
    [editingCustomer?.id], absent for a new record. *)
Module Payload.
Record t : Type := mk {
  id : option string;
  empresa_id : string;
  name : string;
  phone : string;
  email : string;
  status : CustomerStatus;
  registration_date : string;
  observations : string;
  created_by : string;
  is_deleted : bool
}.
End Payload.

(** ** External collaborators

    A thrown value carries an optional [message]; a session of the auth
    client carries an optional user. *)

Module JsError.
Record t : Type := mk { message : option string }.
End JsError.

Module User.
Record t : Type := mk { id : string }.
End User.

Module Session.
Record t : Type := mk { user : option User.t }.
End Session.

Inductive AuthChangeEvent : Type :=
| INITIAL_SESSION
| SIGNED_IN
| SIGNED_OUT
| USER_DELETED
| TOKEN_REFRESHED
| USER_UPDATED
| PASSWORD_RECOVERY
| MFA_CHALLENGE_VERIFIED.

(** [session?.user] *)
Definition session_user (session : option Session.t) : option User.t :=
  match session with
  | Some s => Session.user s
  | None => None
  end.

Inductive Outcome (A : Type) : Type :=
| Resolved (a : A)
| Rejected (e : JsError.t).
Arguments Resolved {A} a.
Arguments Rejected {A} e.

Inductive ServiceCall : Type :=
| GetSession
| GetProfile (userId : string)
| SignUp (email password companyName responsibleName : string)
| SignIn (email password : string)
| SignOut
| FetchAll (empresaId : string)
| Save (payload : Payload.t)
| HardDelete (id empresaId : string).

(** What the collaborators answer.  [unmounted_during c] tells whether the
    effect's cleanup ([mounted = false]) runs while call [c] is awaited. *)
Record Services : Type := {
  supabase_getSession : Outcome (option Session.t);
  authService_getProfile : string -> Outcome UserProfile.t;
  authService_signUp : string -> string -> string -> string -> Outcome unit;
  authService_signIn : string -> string -> Outcome unit;
  authService_signOut : Outcome unit;
  customerService_fetchAll : string -> Outcome (list Customer.t);
  customerService_save : Payload.t -> Outcome unit;
  customerService_hardDelete : string -> string -> Outcome unit;
  window_confirm : string -> bool;
  unmounted_during : ServiceCall -> bool
}.

(** Observable interactions, in order.  A call is recorded with the value
    the busy flag [loading] has when the call is issued. *)
Inductive Effect : Type :=
| Call (c : ServiceCall) (busy : bool)
| Confirm (message : string).

Definition is_call (e : Effect) : bool :=
  match e with
  | Call _ _ => true
  | Confirm _ => false
  end.

Record AppState : Type := {
  auth : AuthState.t;
  customers : list Customer.t;
  search : string;
  showForm : bool;
  editingCustomer : option Customer.t;
  authMode : AuthMode;
  authForm : AuthForm.t;
  loading : bool;
  notification : option Notification.t;
  (* the [mounted] variable of the auth effect *)
  mounted : bool;
  (* pending [setTimeout] callbacks (each is [setNotification(null)]), by due time in ms *)
  timers : list nat;
  (* current time in ms *)
  now : nat;
  trace : list Effect
}.

(** The initial values given to [useState], with the effect just mounted. *)
Definition initialState : AppState :=
  {| auth := AuthState.mk false None true;
     customers := [];
     search := "";
     showForm := false;
     editingCustomer := None;
     authMode := login;
     authForm := AuthForm.mk "" "" "" "" false;
     loading := false;
     notification := None;
     mounted := true;
     timers := [];
     now := 0;
     trace := [] |}.

Definition with_auth (f : AuthState.t -> AuthState.t) (s : AppState) : AppState :=
  {| auth := f (auth s); customers := customers s; search := search s;
     showForm := showForm s; editingCustomer := editingCustomer s;
     authMode := authMode s; authForm := authForm s; loading := loading s;
     notification := notification s; mounted := mounted s; timers := timers s;
     now := now s; trace := trace s |}.

Definition with_customers (f : list Customer.t -> list Customer.t) (s : AppState) : AppState :=
  {| auth := auth s; customers := f (customers s); search := search s;
     showForm := showForm s; editingCustomer := editingCustomer s;
     authMode := authMode s; authForm := authForm s; loading := loading s;
     notification := notification s; mounted := mounted s; timers := timers s;
     now := now s; trace := trace s |}.

Definition with_showForm (b : bool) (s : AppState) : AppState :=
  {| auth := auth s; customers := customers s; search := search s;
     showForm := b; editingCustomer := editingCustomer s;
     authMode := authMode s; authForm := authForm s; loading := loading s;
     notification := notification s; mounted := mounted s; timers := timers s;
     now := now s; trace := trace s |}.

Definition with_editingCustomer (c : option Customer.t) (s : AppState) : AppState :=
  {| auth := auth s; customers := customers s; search := search s;
     showForm := showForm s; editingCustomer := c;
     authMode := authMode s; authForm := authForm s; loading := loading s;
     notification := notification s; mounted := mounted s; timers := timers s;
     now := now s; trace := trace s |}.

Definition with_authMode (m : AuthMode) (s : AppState) : AppState :=
  {| auth := auth s; customers := customers s; search := search s;
     showForm := showForm s; editingCustomer := editingCustomer s;
     authMode := m; authForm := authForm s; loading := loading s;
     notification := notification s; mounted := mounted s; timers := timers s;
     now := now s; trace := trace s |}.

Definition with_loading (b : bool) (s : AppState) : AppState :=
  {| auth := auth s; customers := customers s; search := search s;
     showForm := showForm s; editingCustomer := editingCustomer s;
     authMode := authMode s; authForm := authForm s; loading := b;
     notification := notification s; mounted := mounted s; timers := timers s;
     now := now s; trace := trace s |}.

Definition with_notification (n : option Notification.t) (s : AppState) : AppState :=
  {| auth := auth s; customers := customers s; search := search s;
     showForm := showForm s; editingCustomer := editingCustomer s;
     authMode := authMode s; authForm := authForm s; loading := loading s;
     notification := n; mounted := mounted s; timers := timers s;
     now := now s; trace := trace s |}.

Definition with_mounted (b : bool) (s : AppState) : AppState :=
  {| auth := auth s; customers := customers s; search := search s;
     showForm := showForm s; editingCustomer := editingCustomer s;
     authMode := authMode s; authForm := authForm s; loading := loading s;
     notification := notification s; mounted := b; timers := timers s;
     now := now s; trace := trace s |}.

Definition with_clock (ts : list nat) (t : nat) (s : AppState) : AppState :=
  {| auth := auth s; customers := customers s; search := search s;
     showForm := showForm s; editingCustomer := editingCustomer s;
     authMode := authMode s; authForm := authForm s; loading := loading s;
     notification := notification s; mounted := mounted s; timers := ts;
     now := t; trace := trace s |}.

Definition record_effect (e : Effect) (s : AppState) : AppState :=
  {| auth := auth s; customers := customers s; search := search s;
     showForm := showForm s; editingCustomer := editingCustomer s;
     authMode := authMode s; authForm := authForm s; loading := loading s;
     notification := notification s; mounted := mounted s; timers := timers s;
     now := now s; trace := trace s ++ [e] |}.

(** ** Handlers as state transformers that may throw *)

Inductive Result (A : Type) : Type :=
| Ret (a : A)
| Throw (e : JsError.t).
Arguments Ret {A} a.
Arguments Throw {A} e.

Definition M (A : Type) : Type := AppState -> Result A * AppState.

Definition ret {A} (a : A) : M A := fun s => (Ret a, s).

Definition throw {A} (e : JsError.t) : M A := fun s => (Throw e, s).

Definition bind {A B} (m : M A) (k : A -> M B) : M B :=
  fun s =>
    match m s with
    | (Ret a, s') => k a s'
    | (Throw e, s') => (Throw e, s')
    end.

Declare Scope handler_scope.
Delimit Scope handler_scope with handler.
Notation "x <- m ;; k" := (bind m (fun x => k))
  (at level 61, m at next level, right associativity) : handler_scope.
Notation "m ;; k" := (bind m (fun _ => k))
  (at level 61, right associativity) : handler_scope.
Open Scope handler_scope.

(** [try { body } catch (e) { handler e }] *)
Definition try_catch {A} (body : M A) (handler : JsError.t -> M A) : M A :=
  fun s =>
    match body s with
    | (Ret a, s') => (Ret a, s')
    | (Throw e, s') => handler e s'
    end.

(** [try { body } finally { cleanup }]: the cleanup runs on both exits and
    the body's completion is kept unless the cleanup itself throws. *)
Definition try_finally {A} (body : M A) (cleanup : M unit) : M A :=
  fun s =>
    match body s with
    | (r, s') =>
        match cleanup s' with
        | (Ret _, s'') => (r, s'')
        | (Throw e, s'') => (Throw e, s'')
        end
    end.

Definition read {A} (f : AppState -> A) : M A := fun s => (Ret (f s), s).

Definition modify (f : AppState -> AppState) : M unit := fun s => (Ret tt, f s).

Definition setAuth (a : AuthState.t) : M unit := modify (with_auth (fun _ => a)).
Definition setAuthWith (f : AuthState.t -> AuthState.t) : M unit := modify (with_auth f).
Definition setCustomers (l : list Customer.t) : M unit := modify (with_customers (fun _ => l)).
Definition setCustomersWith (f : list Customer.t -> list Customer.t) : M unit :=
  modify (with_customers f).
Definition setShowForm (b : bool) : M unit := modify (with_showForm b).
Definition setEditingCustomer (c : option Customer.t) : M unit := modify (with_editingCustomer c).
Definition setAuthMode (m : AuthMode) : M unit := modify (with_authMode m).
Definition setLoading (b : bool) : M unit := modify (with_loading b).

(** [a || b] on an optional string: absent and empty are falsy. *)
Definition or_default (a : option string) (b : string) : string :=
  match a with
  | None | Some EmptyString => b
  | Some s => s
  end.

(** *** Notification timer *)

Definition NOTIFY_DELAY : nat := 4000.

(** [showNotify]: [setNotification({message, type})] and a [setTimeout] of
    [setNotification(null)], due [NOTIFY_DELAY] ms from now.  The timer
    handle is dropped: nothing cancels a pending timer. *)
Definition showNotify_st (message : string) (type : NotificationType) (s : AppState)
  : AppState :=
  with_clock (timers s ++ [now s + NOTIFY_DELAY]) (now s)
    (with_notification (Some (Notification.mk message type)) s).

Definition showNotify (message : string) (type : NotificationType) : M unit :=
  modify (showNotify_st message type).

(** Time advances to instant [t]: every pending timer due by [t] runs its
    callback [setNotification(null)] and leaves the timer table. *)
Definition elapse (t : nat) (s : AppState) : AppState :=
  let due := filter (fun d => d <=? t)%nat (timers s) in
  let pending := filter (fun d => negb (d <=? t)%nat) (timers s) in
  with_clock pending (Nat.max (now s) t)
    (match due with
     | [] => s
     | _ :: _ => with_notification None s
     end).

(** Two [showNotify] calls, the first at instant [t1], the second at [t2]. *)
Definition notify_twice (s : AppState)
  (m1 : string) (k1 : NotificationType) (t1 : nat)
  (m2 : string) (k2 : NotificationType) (t2 : nat) : AppState :=
  showNotify_st m2 k2 (elapse t2 (showNotify_st m1 k1 (elapse t1 s))).

Section Handlers.

Variable env : Services.

(** [await] of a collaborator's promise: the call is recorded, the
    component may be unmounted meanwhile, and a rejection is thrown. *)
Definition await {A} (c : ServiceCall) (answer : Outcome A) : M A :=
  fun s =>
    let s1 := record_effect (Call c (loading s)) s in
    let s2 := if unmounted_during env c then with_mounted false s1 else s1 in
    match answer with
    | Resolved a => (Ret a, s2)
    | Rejected e => (Throw e, s2)
    end.

Definition confirm (message : string) : M bool :=
  fun s => (Ret (window_confirm env message), record_effect (Confirm message) s).

(** *** The authentication effect *)

Definition initializeAuth : M unit :=
  try_catch
    (session <- await GetSession (supabase_getSession env) ;;
     m <- read mounted ;;
     match session_user session, m with
     | Some u, true =>
         profile <- await (GetProfile (User.id u))
                          (authService_getProfile env (User.id u)) ;;
         setAuth (AuthState.mk true (Some profile) false)
     | _, _ =>
         if m then setAuth (AuthState.mk false None false) else ret tt
     end)
    (fun e =>
       m <- read mounted ;;
       if m then setAuth (AuthState.mk false None false) else ret tt).

Definition onAuthStateChange (event : AuthChangeEvent) (session : option Session.t)
  : M unit :=
  m <- read mounted ;;
  if negb m then ret tt else
  match event, session_user session with
  | SIGNED_IN, Some u =>
      try_catch
        (profile <- await (GetProfile (User.id u))
                          (authService_getProfile env (User.id u)) ;;
         setAuth (AuthState.mk true (Some profile) false))
        (fun e => setAuth (AuthState.mk true None false))
  | SIGNED_OUT, _ | USER_DELETED, _ =>
      setAuth (AuthState.mk false None false) ;;
      setCustomers []
  | TOKEN_REFRESHED, Some _ =>
      setAuthWith (fun prev =>
                     AuthState.mk true (AuthState.profile prev) (AuthState.loading prev))
  | _, _ => ret tt
  end.

(** *** Customer synchronisation and user actions *)

Definition loadCustomers : M unit :=
  a <- read auth ;;
  match AuthState.profile a with
  | None => ret tt
  | Some p =>
      try_catch
        (data <- await (FetchAll (UserProfile.id p))
                       (customerService_fetchAll env (UserProfile.id p)) ;;
         setCustomers data)
        (fun err => showNotify "Falha ao carregar lista de clientes." error)
  end.

Definition handleAuth : M unit :=
  busy <- read loading ;;
  if busy then ret tt else
  setLoading true ;;
  try_finally
    (try_catch
       (mode <- read authMode ;;
        form <- read authForm ;;
        match mode with
        | signup =>
            (if negb (AuthForm.terms form)
             then throw (JsError.mk (Some "Você precisa aceitar os termos da LGPD."))
             else ret tt) ;;
            await (SignUp (AuthForm.email form) (AuthForm.password form)
                          (AuthForm.companyName form) (AuthForm.responsibleName form))
                  (authService_signUp env
                     (AuthForm.email form) (AuthForm.password form)
                     (AuthForm.companyName form) (AuthForm.responsibleName form)) ;;
            showNotify "Cadastro realizado! Se o e-mail de confirmação estiver ativo, verifique sua caixa de entrada." success ;;
            setAuthMode login
        | login =>
            await (SignIn (AuthForm.email form) (AuthForm.password form))
                  (authService_signIn env (AuthForm.email form) (AuthForm.password form)) ;;
            showNotify "Bem-vindo de volta!" success
        end)
       (fun err =>
          showNotify (or_default (JsError.message err) "Erro ao processar autenticação.")
                     error))
    (setLoading false).

Definition handleSaveCustomer (formData : FormData.t) : M unit :=
  a <- read auth ;;
  match AuthState.profile a with
  | None => ret tt
  | Some p =>
      setLoading true ;;
      try_finally
        (try_catch
           (editing <- read editingCustomer ;;
            let payload :=
              {| Payload.id := option_map Customer.id editing;
                 Payload.empresa_id := UserProfile.id p;
                 Payload.name := FormData.name formData;
                 Payload.phone := FormData.phone formData;
                 Payload.email := FormData.email formData;
                 Payload.status := FormData.status formData;
                 Payload.registration_date := FormData.date formData;
                 Payload.observations := FormData.observations formData;
                 Payload.created_by := UserProfile.id p;
                 Payload.is_deleted := false |} in
            await (Save payload) (customerService_save env payload) ;;
            loadCustomers ;;
            setShowForm false ;;
            setEditingCustomer None ;;
            showNotify "Alterações salvas com sucesso." success)
           (fun err => showNotify "Erro ao salvar no servidor." error))
        (setLoading false)
  end.

Definition DELETE_PROMPT : string :=
  "Atenção: Os dados deste cliente serão removidos permanentemente para atender à LGPD. Confirmar?".

Definition handleDelete (id : string) : M unit :=
  a <- read auth ;;
  match AuthState.profile a with
  | None => ret tt
  | Some p =>
      ok <- confirm DELETE_PROMPT ;;
      if negb ok then ret tt else
      setLoading true ;;
      try_finally
        (try_catch
           (await (HardDelete id (UserProfile.id p))
                  (customerService_hardDelete env id (UserProfile.id p)) ;;
            setCustomersWith
              (filter (fun c => negb (String.eqb (Customer.id c) id))) ;;
            showNotify "Cliente excluído permanentemente." success)
           (fun err => showNotify "Falha ao deletar registro." error))
        (setLoading false)
  end.

Definition handleLogout : M unit :=
  try_finally
    (try_catch
       (setLoading true ;;
        await SignOut (authService_signOut env))
       (fun err => showNotify "Falha ao sair. Recarregue a página." error))
    (setLoading false).

End Handlers.

(** ** Sample data *)

Definition ana : Customer.t :=
  Customer.mk "c1" "t1" "Ana" "11999" "ana@x.io" "2024-01-01" ACTIVE "" false "" "t1".
Definition bob : Customer.t :=
  Customer.mk "c2" "t1" "Bob" "22888" "bob@x.io" "2024-01-02" PENDING "" false "" "t1".

Definition acme : UserProfile.t :=
  UserProfile.mk "t1" "owner@acme.io" "Acme" "Olga" true "2024-01-01".

Definition network_error : JsError.t := JsError.mk (Some "Failed to fetch").

(** A backend on which every call succeeds and an existing session is
    found for user [t1]. *)
Definition healthy : Services :=
  {| supabase_getSession := Resolved (Some (Session.mk (Some (User.mk "t1"))));
     authService_getProfile := fun _ => Resolved acme;
     authService_signUp := fun _ _ _ _ => Resolved tt;
     authService_signIn := fun _ _ => Resolved tt;
     authService_signOut := Resolved tt;
     customerService_fetchAll := fun _ => Resolved [ana; bob];
     customerService_save := fun _ => Resolved tt;
     customerService_hardDelete := fun _ _ => Resolved tt;
     window_confirm := fun _ => true;
     unmounted_during := fun _ => false |}.

(** The same backend with the profile lookup failing. *)
Definition profile_down : Services :=
  {| supabase_getSession := supabase_getSession healthy;
     authService_getProfile := fun _ => Rejected network_error;
     authService_signUp := authService_signUp healthy;
     authService_signIn := authService_signIn healthy;
     authService_signOut := authService_signOut healthy;
     customerService_fetchAll := customerService_fetchAll healthy;
     customerService_save := customerService_save healthy;
     customerService_hardDelete := customerService_hardDelete healthy;
     window_confirm := window_confirm healthy;
     unmounted_during := unmounted_during healthy |}.

(** The same backend with every customer mutation failing. *)
Definition persistence_down : Services :=
  {| supabase_getSession := supabase_getSession healthy;
     authService_getProfile := authService_getProfile healthy;
     authService_signUp := authService_signUp healthy;
     authService_signIn := authService_signIn healthy;
     authService_signOut := authService_signOut healthy;
     customerService_fetchAll := fun _ => Rejected network_error;
     customerService_save := fun _ => Rejected network_error;
     customerService_hardDelete := fun _ _ => Rejected network_error;
     window_confirm := window_confirm healthy;
     unmounted_during := unmounted_during healthy |}.

(** A logged-in dashboard holding two customers. *)
Definition dashboard : AppState :=
  with_customers (fun _ => [ana; bob])
    (with_auth (fun _ => AuthState.mk true (Some acme) false) initialState).

(** ** Inline handlers of the rendered tree *)

Definition with_search (q : string) (s : AppState) : AppState :=
  {| auth := auth s; customers := customers s; search := q;
     showForm := showForm s; editingCustomer := editingCustomer s;
     authMode := authMode s; authForm := authForm s; loading := loading s;
     notification := notification s; mounted := mounted s; timers := timers s;
     now := now s; trace := trace s |}.

Definition setSearch (q : string) : M unit := modify (with_search q).

Definition with_authForm (f : AuthForm.t) (s : AppState) : AppState :=
  {| auth := auth s; customers := customers s; search := search s;
     showForm := showForm s; editingCustomer := editingCustomer s;
     authMode := authMode s; authForm := f; loading := loading s;
     notification := notification s; mounted := mounted s; timers := timers s;
     now := now s; trace := trace s |}.

(** [onChange={e => setAuthForm({...authForm, terms: e.target.checked})}]
    and its siblings write the whole form. *)
Definition setAuthForm (f : AuthForm.t) : M unit := modify (with_authForm f).

(** [onClick={() => setShowForm(true)}] of the add buttons. *)
Definition openNewForm : M unit := setShowForm true.

(** [onClick={() => { setEditingCustomer(customer); setShowForm(true); }}] *)
Definition openEditForm (customer : Customer.t) : M unit :=
  setEditingCustomer (Some customer) ;;
  setShowForm true.

(** [onClick={() => { setShowForm(false); setEditingCustomer(null); }}] *)
Definition closeForm : M unit :=
  setShowForm false ;;
  setEditingCustomer None.

(** [onClick={() => setAuthMode(authMode === 'login' ? 'signup' : 'login')}] *)
Definition toggleAuthMode : M unit :=
  mode <- read authMode ;;
  setAuthMode (match mode with login => signup | signup => login end).

(** ** The customer effect

    [useEffect(() => { if (auth.isLoggedIn && auth.profile) loadCustomers() },
    [auth.isLoggedIn, auth.profile?.id])]: the body runs after a render in
    which one of the two dependencies differs from the previous render. *)

Definition customerEffect_deps (s : AppState) : bool * option string :=
  (AuthState.isLoggedIn (auth s),
   option_map UserProfile.id (AuthState.profile (auth s))).

Definition deps_eqb (a b : bool * option string) : bool :=
  Bool.eqb (fst a) (fst b) &&
  match snd a, snd b with
  | Some x, Some y => String.eqb x y
  | None, None => true
  | _, _ => false
  end.

Definition customerEffect (env : Services) : M unit :=
  a <- read auth ;;
  if AuthState.isLoggedIn a
     && match AuthState.profile a with Some _ => true | None => false end
  then loadCustomers env
  else ret tt.

(** A handler followed by the render it causes: the customer effect runs
    when its dependencies changed across the handler. *)
Definition then_render (env : Services) (handler : M unit) : M unit :=
  fun s =>
    match handler s with
    | (r, s') =>
        if deps_eqb (customerEffect_deps s) (customerEffect_deps s')
        then (r, s')
        else (r, snd (customerEffect env s'))
    end.

(** ** CSV export *)

(** [Array.prototype.join] *)
Fixpoint join (sep : string) (l : list string) : string :=
  match l with
  | [] => ""
  | [x] => x
  | x :: rest => x ++ sep ++ join sep rest
  end.

(** [String.prototype.split] on a one-character separator. *)
Fixpoint split (sep : ascii) (s : string) : list string :=
  match s with
  | EmptyString => [""]
  | String c s' =>
      if Ascii.eqb c sep then "" :: split sep s'
      else match split sep s' with
           | [] => [String c ""]
           | h :: t => String c h :: t
           end
  end.

Definition COMMA : ascii := ascii_of_nat 44.
Definition NEWLINE : ascii := ascii_of_nat 10.

(** Occurrences of a character in a string. *)
Fixpoint count_char (sep : ascii) (s : string) : nat :=
  match s with
  | EmptyString => 0
  | String c s' => (if Ascii.eqb c sep then 1 else 0) + count_char sep s'
  end.

(** A cell that contains neither separator of the export. *)
Definition plain_cell (f : string) : Prop :=
  count_char COMMA f = 0 /\ count_char NEWLINE f = 0.

(** The byte order mark U+FEFF, in UTF-8. *)
Definition BOM : string :=
  String (ascii_of_nat 239) (String (ascii_of_nat 187) (String (ascii_of_nat 191) "")).

(** The string value of a [CustomerStatus] member. *)
Definition status_value (s : CustomerStatus) : string :=
  match s with
  | ACTIVE => "ativo"
  | INACTIVE => "inativo"
  | PENDING => "pendente"
  end.

Definition CSV_HEADERS : list string :=
  ["Nome"; "Telefone"; "E-mail"; "Status"; "Data Cadastro"].

Definition csv_row (c : Customer.t) : list string :=
  [Customer.name c; Customer.phone c; Customer.email c;
   status_value (Customer.status c); Customer.registration_date c].

Definition csvContent (customers : list Customer.t) : string :=
  BOM ++ join (String NEWLINE "")
              (map (join (String COMMA "")) (CSV_HEADERS :: map csv_row customers)).

(** The file handed to the browser by [link.click()]. *)
Module Download.
Record t : Type := mk {
  content : string;
  mime : string;
  filename : string
}.
End Download.

(** [exportCSV]; [isoNow] is [new Date().toISOString()]. *)
Definition exportCSV (isoNow : string) : M (option Download.t) :=
  l <- read customers ;;
  if Nat.eqb (List.length l) 0
  then showNotify "Não há dados para exportar." error ;; ret None
  else
    let file :=
      {| Download.content := csvContent l;
         Download.mime := "text/csv;charset=utf-8;";
         Download.filename :=
           "clientes_export_" ++ hd "" (split (ascii_of_nat 84) isoNow) ++ ".csv" |} in
    showNotify "CSV gerado com sucesso." success ;;
    ret (Some file).

(** ** Invariants *)

(** The form is closed only with no record under edit, so a form opened
    by an add button starts a new record. *)
Definition form_consistent (s : AppState) : Prop :=
  showForm s = false -> editingCustomer s = None.

(** A displayed notification always has a timer that will clear it. *)
Definition notification_scheduled (s : AppState) : Prop :=
  notification s = None \/ timers s <> [].

(** Payloads of the [Save] calls of a trace, in order. *)
Fixpoint saved_payloads (t : list Effect) : list Payload.t :=
  match t with
  | [] => []
  | Call (Save p) _ :: t' => p :: saved_payloads t'
  | _ :: t' => saved_payloads t'
  end.

(** Collaborator calls of a trace, in order, without the busy snapshot. *)
Fixpoint calls_of (t : list Effect) : list ServiceCall :=
  match t with
  | [] => []
  | Call c _ :: t' => c :: calls_of t'
  | Confirm _ :: t' => calls_of t'
  end.

(** The payload [handleSaveCustomer] sends for profile [p], record under
    edit [editing] and form fields [formData]. *)
Definition form_payload (p : UserProfile.t) (editing : option Customer.t)
  (formData : FormData.t) : Payload.t :=
  {| Payload.id := option_map Customer.id editing;
     Payload.empresa_id := UserProfile.id p;
     Payload.name := FormData.name formData;
     Payload.phone := FormData.phone formData;
     Payload.email := FormData.email formData;
     Payload.status := FormData.status formData;
     Payload.registration_date := FormData.date formData;
     Payload.observations := FormData.observations formData;
     Payload.created_by := UserProfile.id p;
     Payload.is_deleted := false |}.

(** A backend whose user declines every confirmation prompt. *)
Definition decliner : Services :=
  {| supabase_getSession := supabase_getSession healthy;
     authService_getProfile := authService_getProfile healthy;
     authService_signUp := authService_signUp healthy;
     authService_signIn := authService_signIn healthy;
     authService_signOut := authService_signOut healthy;
     customerService_fetchAll := customerService_fetchAll healthy;
     customerService_save := customerService_save healthy;
     customerService_hardDelete := customerService_hardDelete healthy;
     window_confirm := fun _ => false;
     unmounted_during := unmounted_during healthy |}.

(** A backend whose auth service rejects every request without a message. *)
Definition auth_down : Services :=
  {| supabase_getSession := Rejected (JsError.mk None);
     authService_getProfile := fun _ => Rejected (JsError.mk None);
     authService_signUp := fun _ _ _ _ => Rejected (JsError.mk (Some "User already registered"));
     authService_signIn := fun _ _ => Rejected (JsError.mk None);
     authService_signOut := Rejected (JsError.mk None);
     customerService_fetchAll := customerService_fetchAll healthy;
     customerService_save := customerService_save healthy;
     customerService_hardDelete := customerService_hardDelete healthy;
     window_confirm := window_confirm healthy;
     unmounted_during := unmounted_during healthy |}.

Definition eva_form : FormData.t :=
  FormData.mk "Eva" "33777" "eva@x.io" PENDING "2024-03-01" "vip".

(** The profile lookup answers, but the component is unmounted meanwhile. *)
Definition unmounts_while_profile_loads (env : Services) : Services :=
  {| supabase_getSession := supabase_getSession env;
     authService_getProfile := authService_getProfile env;
     authService_signUp := authService_signUp env;
     authService_signIn := authService_signIn env;
     authService_signOut := authService_signOut env;
     customerService_fetchAll := customerService_fetchAll env;
     customerService_save := customerService_save env;
     customerService_hardDelete := customerService_hardDelete env;
     window_confirm := window_confirm env;
     unmounted_during := fun c => match c with GetProfile _ => true | _ => false end |}.

(** ** Lemmas on the string primitives *)

Lemma prefix_empty (s : string) : prefix "" s = true.
Proof. destruct s; reflexivity. Qed.

Lemma includes_empty (s : string) : includes s "" = true.
Proof. destruct s; simpl; rewrite ?prefix_empty; reflexivity. Qed.

Lemma filter_all_true {A} (f : A -> bool) (l : list A) :
  (forall x, In x l -> f x = true) -> filter f l = l.
Proof.
  induction l as [|a l IH]; intros H; simpl; [reflexivity|].
  rewrite (H a (or_introl eq_refl)). f_equal. apply IH.
  intros x Hx. apply H. right. exact Hx.
Qed.

Lemma filter_partition_length {A} (f : A -> bool) (l : list A) :
  List.length (filter f l) + List.length (filter (fun x => negb (f x)) l) = List.length l.
Proof.
  induction l as [|a l IH]; simpl; [reflexivity|].
  destruct (f a); simpl; lia.
Qed.

(** ** View derivation: properties *)

Example filtered_scenario : filteredCustomers [ana; bob] "an" = [ana].
Proof. reflexivity. Qed.

Example filtered_phone : filteredCustomers [ana; bob] "288" = [bob].
Proof. reflexivity. Qed.

Example stats_scenario :
  stats [ana; bob] = {| AppStats.total := 2; AppStats.active := 1; AppStats.inactive := 1 |}.
Proof. reflexivity. Qed.

(** C8. For every customer list [L], [filteredCustomers L ""] is [L]: the
    empty search query keeps every record, in order. *)
Theorem filteredCustomers_empty_query (L : list Customer.t) :
  filteredCustomers L "" = L.
Proof.
  unfold filteredCustomers. apply filter_all_true.
  intros c _. simpl toLowerCase. rewrite includes_empty. reflexivity.
Qed.

(** C9. For every customer list [L], the active and inactive counts of
    [stats L] add up to its total; the total is the length of [L], active
    counts the records whose status is [ACTIVE], and inactive counts every
    other status, [PENDING] included. *)
Theorem stats_active_inactive_total (L : list Customer.t) :
  AppStats.active (stats L) + AppStats.inactive (stats L) = AppStats.total (stats L)
  /\ AppStats.total (stats L) = List.length L
  /\ AppStats.active (stats L) = count_status ACTIVE L
  /\ AppStats.inactive (stats L) = count_status INACTIVE L + count_status PENDING L.
Proof.
  split; [apply filter_partition_length|].
  split; [reflexivity|].
  unfold stats, count_status; simpl.
  induction L as [|c L [IHa IHi]]; simpl; [split; reflexivity|].
  destruct (Customer.status c); simpl; rewrite ?IHa, ?IHi; split; lia.
Qed.

(** ** Session store: properties *)

Ltac run_handler :=
  unfold bind, try_catch, try_finally, read, modify, ret, throw, await, confirm,
    setAuth, setAuthWith, setCustomers, setCustomersWith, setShowForm,
    setEditingCustomer, setAuthMode, setLoading, showNotify; simpl.

Ltac case_step :=
  match goal with
  | |- context [match ?x with _ => _ end] => destruct x eqn:?
  end; simpl in *.

Ltac env_case :=
  match goal with
  | |- context [unmounted_during ?e ?c] => destruct (unmounted_during e c) eqn:?
  | |- context [supabase_getSession ?e] => destruct (supabase_getSession e) eqn:?
  | |- context [authService_getProfile ?e ?u] =>
      destruct (authService_getProfile e u) eqn:?
  | |- context [authService_signUp ?e ?a ?b ?c ?d] =>
      destruct (authService_signUp e a b c d) eqn:?
  | |- context [authService_signIn ?e ?a ?b] =>
      destruct (authService_signIn e a b) eqn:?
  | |- context [authService_signOut ?e] => destruct (authService_signOut e) eqn:?
  | |- context [customerService_fetchAll ?e ?a] =>
      destruct (customerService_fetchAll e a) eqn:?
  | |- context [customerService_save ?e ?a] =>
      destruct (customerService_save e a) eqn:?
  | |- context [customerService_hardDelete ?e ?a ?b] =>
      destruct (customerService_hardDelete e a b) eqn:?
  | |- context [window_confirm ?e ?a] => destruct (window_confirm e a) eqn:?
  end; simpl.

Ltac env_cases := repeat env_case.

Example init_healthy :
  auth (snd (initializeAuth healthy initialState)) = AuthState.mk true (Some acme) false.
Proof. reflexivity. Qed.

Example signed_in_profile_down :
  auth (snd (onAuthStateChange profile_down SIGNED_IN
               (Some (Session.mk (Some (User.mk "t1")))) initialState))
  = AuthState.mk true None false.
Proof. reflexivity. Qed.

(** While the component stays mounted, startup never throws and always
    clears the initializing flag. *)
Lemma initializeAuth_clears_loading (env : Services) (st : AppState) :
  mounted st = true ->
  (forall c, unmounted_during env c = false) ->
  fst (initializeAuth env st) = Ret tt /\
  AuthState.loading (auth (snd (initializeAuth env st))) = false.
Proof.
  intros Hm Hu. unfold initializeAuth. run_handler.
  rewrite (Hu GetSession).
  destruct (supabase_getSession env) as [session|e0]; simpl; rewrite Hm.
  - destruct (session_user session) as [u0|]; simpl.
    + rewrite (Hu (GetProfile (User.id u0))).
      destruct (authService_getProfile env (User.id u0)) as [pr|e1]; simpl;
        rewrite ?Hm; split; reflexivity.
    + split; reflexivity.
  - split; reflexivity.
Qed.

(** C1. Startup against a backend that holds a session for user [t1] and
    whose profile lookup throws.  [initializeAuth] ends logged out with no
    profile, where the claim requires logged in with the profile
    unavailable; a SIGNED_IN event for the same user against the same
    backend does end logged in with no profile.  The initializing flag is
    cleared in both. *)
Theorem initializeAuth_profile_failure_logs_out :
  supabase_getSession profile_down = Resolved (Some (Session.mk (Some (User.mk "t1")))) /\
  authService_getProfile profile_down "t1" = Rejected network_error /\
  auth (snd (initializeAuth profile_down initialState)) = AuthState.mk false None false /\
  auth (snd (onAuthStateChange profile_down SIGNED_IN
               (Some (Session.mk (Some (User.mk "t1")))) initialState))
  = AuthState.mk true None false.
Proof. repeat split. Qed.

(** ** Notification timer: properties *)

Example notify_scenario_visible :
  notification (notify_twice initialState "Saving" success 0 "Failed" error 1000)
  = Some (Notification.mk "Failed" error).
Proof. reflexivity. Qed.

(** C2 (as stated, refuted). Two calls 1000 ms apart: at 4000 ms, which is
    less than [NOTIFY_DELAY] after the second call, the second notification
    is already gone, cleared by the timer of the first call. *)
Lemma notify_twice_cleared_by_first_timer :
  (1000 <= 4000 < 1000 + NOTIFY_DELAY) /\
  notification
    (elapse 4000 (notify_twice initialState "Saving" success 0 "Failed" error 1000))
  = None /\
  notification
    (elapse 4000 (notify_twice initialState "Saving" success 0 "Failed" error 1000))
  <> Some (Notification.mk "Failed" error).
Proof.
  unfold NOTIFY_DELAY. split; [lia|]. split; [reflexivity|].
  simpl. discriminate.
Qed.

(** C2 (amended). For two [showNotify] calls at [t1 <= t2 < t1 + NOTIFY_DELAY]
    with no timer pending beforehand, only the second message and kind are
    visible after the second call; they stay visible up to, and are cleared
    at, [NOTIFY_DELAY] after the FIRST call, whose timer is never cancelled. *)
Theorem notify_twice_expiry (st : AppState)
  (m1 : string) (k1 : NotificationType) (t1 : nat)
  (m2 : string) (k2 : NotificationType) (t2 : nat) :
  timers st = [] ->
  now st <= t1 ->
  t1 <= t2 < t1 + NOTIFY_DELAY ->
  notification (notify_twice st m1 k1 t1 m2 k2 t2) = Some (Notification.mk m2 k2) /\
  (forall t, t2 <= t < t1 + NOTIFY_DELAY ->
     notification (elapse t (notify_twice st m1 k1 t1 m2 k2 t2))
     = Some (Notification.mk m2 k2)) /\
  (forall t, t1 + NOTIFY_DELAY <= t ->
     notification (elapse t (notify_twice st m1 k1 t1 m2 k2 t2)) = None).
Proof.
  intros Ht Hn [H12 H21].
  unfold notify_twice, showNotify_st, elapse. simpl. rewrite Ht. simpl.
  rewrite (Nat.max_r _ _ Hn).
  destruct (Nat.leb_spec (t1 + NOTIFY_DELAY) t2) as [Hle|Hgt]; [lia|]. simpl.
  rewrite (Nat.max_r _ _ H12).
  split; [reflexivity|]. split; intros t Hrange.
  - destruct (Nat.leb_spec (t1 + NOTIFY_DELAY) t) as [Hle|_]; [lia|]. simpl.
    destruct (Nat.leb_spec (t2 + NOTIFY_DELAY) t) as [Hle|_]; [lia|]. reflexivity.
  - destruct (Nat.leb_spec (t1 + NOTIFY_DELAY) t) as [_|Hlt]; [|lia]. simpl.
    destruct (t2 + NOTIFY_DELAY <=? t)%nat; reflexivity.
Qed.

Lemma notify_twice_expiry_witness :
  notification (notify_twice initialState "Saving" success 0 "Failed" error 1000)
  = Some (Notification.mk "Failed" error) /\
  notification
    (elapse 3999 (notify_twice initialState "Saving" success 0 "Failed" error 1000))
  = Some (Notification.mk "Failed" error) /\
  notification
    (elapse 4000 (notify_twice initialState "Saving" success 0 "Failed" error 1000))
  = None.
Proof.
  assert (Hwindow : 0 <= 1000 < 0 + NOTIFY_DELAY) by (unfold NOTIFY_DELAY; lia).
  destruct (notify_twice_expiry initialState "Saving" success 0 "Failed" error 1000
              eq_refl (Nat.le_refl 0) Hwindow)
    as (Hvis & Hkeep & Hclear).
  split; [exact Hvis|]. split.
  - apply Hkeep. unfold NOTIFY_DELAY. lia.
  - apply Hclear. unfold NOTIFY_DELAY. lia.
Defined.

(** ** Auth events: properties *)

Lemma with_auth_same (st : AppState) (f : AuthState.t -> AuthState.t) :
  f (auth st) = auth st -> with_auth f st = st.
Proof. intros H. destruct st. unfold with_auth. simpl in *. rewrite H. reflexivity. Qed.

(** C3. In every state that is logged in with a loaded profile, a
    TOKEN_REFRESHED event leaves [isLoggedIn] true and changes nothing
    else: the profile and the [loading] flag are those held before, the
    rest of the state is untouched, and no call (so no profile fetch) is
    issued. *)
Theorem token_refreshed_frame (env : Services) (st : AppState)
  (session : option Session.t) (p : UserProfile.t) :
  AuthState.isLoggedIn (auth st) = true ->
  AuthState.profile (auth st) = Some p ->
  fst (onAuthStateChange env TOKEN_REFRESHED session st) = Ret tt /\
  AuthState.isLoggedIn (auth (snd (onAuthStateChange env TOKEN_REFRESHED session st))) = true /\
  AuthState.profile (auth (snd (onAuthStateChange env TOKEN_REFRESHED session st))) = Some p /\
  AuthState.loading (auth (snd (onAuthStateChange env TOKEN_REFRESHED session st)))
  = AuthState.loading (auth st) /\
  trace (snd (onAuthStateChange env TOKEN_REFRESHED session st)) = trace st /\
  snd (onAuthStateChange env TOKEN_REFRESHED session st) = st.
Proof.
  intros Hin Hp.
  assert (Hsame : with_auth
                    (fun prev => AuthState.mk true (AuthState.profile prev)
                                              (AuthState.loading prev)) st = st).
  { apply with_auth_same. destruct (auth st) as [i q l]. simpl in *.
    rewrite Hin. reflexivity. }
  unfold onAuthStateChange. run_handler.
  destruct (mounted st); simpl;
    [destruct (session_user session); simpl; rewrite ?Hsame|];
    repeat split; assumption || reflexivity.
Qed.

Lemma token_refreshed_frame_witness :
  AuthState.profile
    (auth (snd (onAuthStateChange healthy TOKEN_REFRESHED
                  (Some (Session.mk (Some (User.mk "t1")))) dashboard)))
  = Some acme /\
  trace (snd (onAuthStateChange healthy TOKEN_REFRESHED
                (Some (Session.mk (Some (User.mk "t1")))) dashboard))
  = trace dashboard.
Proof.
  destruct (token_refreshed_frame healthy dashboard
              (Some (Session.mk (Some (User.mk "t1")))) acme eq_refl eq_refl)
    as (_ & _ & Hp & _ & Ht & _).
  split; [exact Hp | exact Ht].
Defined.

(** C5. Whatever the prior session state and customer list, processing a
    SIGNED_OUT or USER_DELETED event on the live subscription ends with
    [isLoggedIn] false, no profile and an empty customer list. *)
Theorem signed_out_clears (env : Services) (st : AppState)
  (event : AuthChangeEvent) (session : option Session.t) :
  mounted st = true ->
  event = SIGNED_OUT \/ event = USER_DELETED ->
  fst (onAuthStateChange env event session st) = Ret tt /\
  AuthState.isLoggedIn (auth (snd (onAuthStateChange env event session st))) = false /\
  AuthState.profile (auth (snd (onAuthStateChange env event session st))) = None /\
  customers (snd (onAuthStateChange env event session st)) = [] /\
  trace (snd (onAuthStateChange env event session st)) = trace st.
Proof.
  intros Hm [-> | ->]; unfold onAuthStateChange; run_handler; rewrite Hm; simpl;
    repeat split; reflexivity.
Qed.

Lemma signed_out_clears_witness :
  AuthState.isLoggedIn (auth (snd (onAuthStateChange healthy SIGNED_OUT None dashboard)))
  = false /\
  customers (snd (onAuthStateChange healthy SIGNED_OUT None dashboard)) = [].
Proof.
  destruct (signed_out_clears healthy dashboard SIGNED_OUT None eq_refl
              (or_introl eq_refl)) as (_ & Hl & _ & Hc & _).
  split; [exact Hl | exact Hc].
Defined.

(** ** User actions: properties *)

Example delete_scenario :
  customers (snd (handleDelete healthy "c1" dashboard)) = [bob].
Proof. reflexivity. Qed.

Lemma filter_In_id (id : string) (l : list Customer.t) (c : Customer.t) :
  In c (filter (fun c => negb (String.eqb (Customer.id c) id)) l)
  <-> In c l /\ Customer.id c <> id.
Proof.
  rewrite filter_In. split; intros [Hc Hid]; split; try assumption.
  - intros E. rewrite E, String.eqb_refl in Hid. discriminate Hid.
  - destruct (String.eqb_spec (Customer.id c) id) as [E|_]; [contradiction|reflexivity].
Qed.

(** C4. With a profile loaded and the prompt confirmed, [handleDelete id]
    issues the deletion for the active tenant and never throws.  When the
    deletion succeeds the list becomes the prior list without the records
    whose id is [id], all others kept in order, and the busy flag is
    released; when it fails the list is exactly the prior one and an error
    notification is raised. *)
Theorem handleDelete_list (env : Services) (st : AppState) (id : string)
  (p : UserProfile.t) :
  AuthState.profile (auth st) = Some p ->
  window_confirm env DELETE_PROMPT = true ->
  fst (handleDelete env id st) = Ret tt /\
  trace (snd (handleDelete env id st))
  = (trace st ++ [Confirm DELETE_PROMPT; Call (HardDelete id (UserProfile.id p)) true])%list /\
  ((exists u, customerService_hardDelete env id (UserProfile.id p) = Resolved u) ->
     customers (snd (handleDelete env id st))
     = filter (fun c => negb (String.eqb (Customer.id c) id)) (customers st) /\
     (forall c, In c (customers (snd (handleDelete env id st)))
                <-> In c (customers st) /\ Customer.id c <> id) /\
     notification (snd (handleDelete env id st))
     = Some (Notification.mk "Cliente excluído permanentemente." success)) /\
  ((exists e, customerService_hardDelete env id (UserProfile.id p) = Rejected e) ->
     customers (snd (handleDelete env id st)) = customers st /\
     notification (snd (handleDelete env id st))
     = Some (Notification.mk "Falha ao deletar registro." error)).
Proof.
  intros Hp Hc. unfold handleDelete. run_handler. rewrite Hp, Hc. simpl.
  destruct (unmounted_during env (HardDelete id (UserProfile.id p)));
    destruct (customerService_hardDelete env id (UserProfile.id p)) as [u|e];
    simpl; rewrite <- ?app_assoc; simpl;
    (split; [reflexivity|]); (split; [reflexivity|]);
    (split; [intros [u' Hu] | intros [e' He]]); try discriminate;
    (split; [reflexivity|]);
    try reflexivity;
    (split; [intros c; apply filter_In_id | reflexivity]).
Qed.

Lemma handleDelete_list_witness :
  customers (snd (handleDelete healthy "c1" dashboard)) = [bob] /\
  customers (snd (handleDelete persistence_down "c1" dashboard)) = [ana; bob] /\
  notification (snd (handleDelete persistence_down "c1" dashboard))
  = Some (Notification.mk "Falha ao deletar registro." error).
Proof.
  destruct (handleDelete_list healthy dashboard "c1" acme eq_refl eq_refl)
    as (_ & _ & Hok & _).
  destruct (handleDelete_list persistence_down dashboard "c1" acme eq_refl eq_refl)
    as (_ & _ & _ & Hko).
  destruct (Hok (ex_intro _ tt eq_refl)) as (Hlist & _ & _).
  destruct (Hko (ex_intro _ network_error eq_refl)) as (Hsame & Hnote).
  split; [exact Hlist|]. split; [exact Hsame | exact Hnote].
Defined.

Example signup_without_terms :
  notification (snd (handleAuth healthy (with_authMode signup initialState)))
  = Some (Notification.mk "Você precisa aceitar os termos da LGPD." error).
Proof. reflexivity. Qed.

(** While an operation is outstanding, [handleAuth] returns at once. *)
Lemma handleAuth_busy (env : Services) (st : AppState) :
  loading st = true -> handleAuth env st = (Ret tt, st).
Proof. intros H. unfold handleAuth. run_handler. rewrite H. reflexivity. Qed.

(** C6. A sign-up submitted with the terms flag false never reaches the
    auth service: no call is issued, nothing is thrown past the handler and
    the session state and customer list are unchanged.  Unless another
    operation is outstanding (in which case the submission is ignored), the
    local validation error is surfaced as an error notification, the form
    stays in sign-up mode and the busy flag is released. *)
Theorem signUp_requires_terms (env : Services) (st : AppState) :
  authMode st = signup ->
  AuthForm.terms (authForm st) = false ->
  fst (handleAuth env st) = Ret tt /\
  trace (snd (handleAuth env st)) = trace st /\
  auth (snd (handleAuth env st)) = auth st /\
  customers (snd (handleAuth env st)) = customers st /\
  authMode (snd (handleAuth env st)) = signup /\
  (loading st = false ->
   notification (snd (handleAuth env st))
   = Some (Notification.mk "Você precisa aceitar os termos da LGPD." error) /\
   loading (snd (handleAuth env st)) = false).
Proof.
  intros Hm Ht. destruct (loading st) eqn:Hl.
  - rewrite (handleAuth_busy env st Hl). simpl.
    repeat split; try reflexivity; try assumption; discriminate.
  - unfold handleAuth. run_handler.
    rewrite Hl. simpl. rewrite Hm, Ht. simpl.
    repeat split; try reflexivity. exact Hm.
Qed.

Lemma signUp_requires_terms_witness :
  trace (snd (handleAuth healthy (with_authMode signup initialState))) = [] /\
  auth (snd (handleAuth healthy (with_authMode signup initialState)))
  = auth initialState /\
  notification (snd (handleAuth healthy (with_authMode signup initialState)))
  = Some (Notification.mk "Você precisa aceitar os termos da LGPD." error).
Proof.
  destruct (signUp_requires_terms healthy (with_authMode signup initialState)
              eq_refl eq_refl) as (_ & Ht & Ha & _ & _ & Hn).
  split; [exact Ht|]. split; [exact Ha | exact (proj1 (Hn eq_refl))].
Defined.



(** ** Busy flag: properties *)

Example logout_releases_busy :
  loading (snd (handleLogout healthy (with_loading true dashboard))) = false.
Proof. reflexivity. Qed.

(** Whatever the guarded block does, a [finally { setLoading(false) }]
    leaves the busy flag clear. *)
Lemma try_finally_releases {A} (body : M A) (s : AppState) :
  loading (snd (try_finally body (setLoading false) s)) = false.
Proof.
  unfold try_finally, setLoading, modify. destruct (body s) as [r s']. reflexivity.
Qed.

(** C7. Each network-bound user action sets the busy flag before its
    service call and returns with the flag clear, whether the call
    succeeds or fails.  Logout always calls sign-out, with the flag set.
    An auth submit started while idle calls sign-in, or sign-up when the
    terms are accepted, with the flag set (a sign-up without the terms
    calls nothing).  A save with a profile loaded sends its payload with
    the flag set, followed at most by the reload, flag still set.  A
    confirmed delete with a profile loaded calls the deletion with the
    flag set.  The only other exits are the early returns, taken before
    the flag is touched and before any call: an auth submit while busy, a
    save or delete without profile, a declined delete.  The release does
    not depend on how the guarded block completes. *)
Theorem busy_flag_released (env : Services) (st : AppState)
  (formData : FormData.t) (id : string) :
  (trace (snd (handleLogout env st)) = (trace st ++ [Call SignOut true])%list /\
   loading (snd (handleLogout env st)) = false) /\
  (loading st = true -> handleAuth env st = (Ret tt, st)) /\
  (loading st = false ->
   loading (snd (handleAuth env st)) = false /\
   (authMode st = login ->
    trace (snd (handleAuth env st))
    = (trace st ++ [Call (SignIn (AuthForm.email (authForm st))
                                 (AuthForm.password (authForm st))) true])%list) /\
   (authMode st = signup -> AuthForm.terms (authForm st) = true ->
    trace (snd (handleAuth env st))
    = (trace st ++ [Call (SignUp (AuthForm.email (authForm st))
                                 (AuthForm.password (authForm st))
                                 (AuthForm.companyName (authForm st))
                                 (AuthForm.responsibleName (authForm st))) true])%list) /\
   (authMode st = signup -> AuthForm.terms (authForm st) = false ->
    trace (snd (handleAuth env st)) = trace st)) /\
  (AuthState.profile (auth st) = None ->
   handleSaveCustomer env formData st = (Ret tt, st) /\
   handleDelete env id st = (Ret tt, st)) /\
  (forall p, AuthState.profile (auth st) = Some p ->
   loading (snd (handleSaveCustomer env formData st)) = false /\
   exists rest,
     trace (snd (handleSaveCustomer env formData st))
     = (trace st
        ++ Call (Save (form_payload p (editingCustomer st) formData)) true :: rest)%list /\
     (rest = [] \/ rest = [Call (FetchAll (UserProfile.id p)) true])) /\
  (forall p, AuthState.profile (auth st) = Some p ->
   (window_confirm env DELETE_PROMPT = false ->
    handleDelete env id st = (Ret tt, record_effect (Confirm DELETE_PROMPT) st)) /\
   (window_confirm env DELETE_PROMPT = true ->
    loading (snd (handleDelete env id st)) = false /\
    trace (snd (handleDelete env id st))
    = (trace st ++ [Confirm DELETE_PROMPT;
                    Call (HardDelete id (UserProfile.id p)) true])%list)) /\
  (forall (A : Type) (body : M A) (s : AppState),
     loading (snd (try_finally body (setLoading false) s)) = false).
Proof.
  split.
  { unfold handleLogout. run_handler. env_cases; split; reflexivity. }
  split.
  { intros Hl. unfold handleAuth. run_handler. rewrite Hl. reflexivity. }
  split.
  { intros Hl. unfold handleAuth. run_handler. rewrite Hl. simpl.
    destruct (authMode st) eqn:Hm; simpl;
      [|destruct (AuthForm.terms (authForm st)) eqn:Ht; simpl];
      env_cases; repeat split; try reflexivity; intros; discriminate. }
  split.
  { intros Hp. unfold handleSaveCustomer, handleDelete. run_handler.
    rewrite Hp. split; reflexivity. }
  split.
  { intros p Hp. unfold handleSaveCustomer, loadCustomers. run_handler.
    rewrite Hp. simpl.
    repeat first [env_case | rewrite Hp; simpl];
      (split; [reflexivity|]); rewrite <- ?app_assoc; simpl;
      eexists; (split; [reflexivity|]);
      first [left; reflexivity | right; reflexivity]. }
  split.
  { intros p Hp. unfold handleDelete. run_handler. rewrite Hp. simpl.
    split; intros Hc; rewrite Hc; simpl; [reflexivity|].
    env_cases; rewrite <- ?app_assoc; split; reflexivity. }
  intros A body s. apply try_finally_releases.
Qed.

Lemma busy_flag_released_witness :
  trace (snd (handleAuth auth_down initialState))
  = [Call (SignIn "" "") true] /\
  loading (snd (handleAuth auth_down initialState)) = false /\
  trace (snd (handleSaveCustomer persistence_down eva_form dashboard))
  = [Call (Save (form_payload acme None eva_form)) true] /\
  loading (snd (handleSaveCustomer persistence_down eva_form dashboard)) = false /\
  trace (snd (handleDelete persistence_down "c1" dashboard))
  = [Confirm DELETE_PROMPT; Call (HardDelete "c1" "t1") true] /\
  loading (snd (handleDelete persistence_down "c1" dashboard)) = false.
Proof.
  destruct (busy_flag_released auth_down initialState eva_form "c1")
    as (_ & _ & Hauth & _).
  destruct (busy_flag_released persistence_down dashboard eva_form "c1")
    as (_ & _ & _ & _ & Hsave & Hdel & _).
  destruct (Hauth eq_refl) as (Ha1 & Ha2 & _).
  destruct (Hsave acme eq_refl) as (Hs1 & rest & Hs2 & Hrest).
  destruct (Hdel acme eq_refl) as (_ & Hd).
  destruct (Hd eq_refl) as (Hd1 & Hd2).
  split; [exact (Ha2 eq_refl)|]. split; [exact Ha1|].
  split; [reflexivity|]. split; [exact Hs1|].
  split; [exact Hd2 | exact Hd1].
Defined.

(** ** Search: further properties *)

Lemma prefix_refl (s : string) : prefix s s = true.
Proof.
  induction s as [|c s IH]; simpl; [reflexivity|].
  destruct (ascii_dec c c) as [_|N]; [exact IH | contradiction].
Qed.

Lemma includes_refl (s : string) : includes s s = true.
Proof.
  destruct s as [|c s]; [reflexivity|].
  cbn [includes]. rewrite prefix_refl. reflexivity.
Qed.

Lemma prefix_app_l (a b s : string) : prefix (a ++ b) s = true -> prefix a s = true.
Proof.
  revert s. induction a as [|c a IH]; intros s H; simpl in *.
  - apply prefix_empty.
  - destruct s as [|d s]; [discriminate H|].
    cbn [prefix] in *.
    destruct (ascii_dec c d); [apply IH; exact H | discriminate H].
Qed.

Lemma includes_app_l (s a b : string) :
  includes s (a ++ b) = true -> includes s a = true.
Proof.
  induction s as [|c s IH]; cbn [includes]; intros H.
  - rewrite orb_false_r in *. eapply prefix_app_l. exact H.
  - apply orb_true_iff in H. apply orb_true_iff. destruct H as [H|H].
    + left. eapply prefix_app_l. exact H.
    + right. apply IH. exact H.
Qed.

Lemma toLowerCase_app (a b : string) :
  toLowerCase (a ++ b) = toLowerCase a ++ toLowerCase b.
Proof. induction a as [|c a IH]; simpl; [reflexivity|]. rewrite IH. reflexivity. Qed.

Example filtered_instance (L : list Customer.t) (q : string) :
  filteredCustomers L q = filteredCustomersWith toLowerCase L q.
Proof. reflexivity. Qed.

(** X1. Whatever lowering function the host provides, a record of the
    list is found by every query that lowers to the same string as its
    full name: typing the full name finds the record in any letter case
    the host folds. *)
Theorem search_full_name_any_case (lower : string -> string)
  (L : list Customer.t) (c : Customer.t) (q : string) :
  In c L ->
  lower q = lower (Customer.name c) ->
  In c (filteredCustomersWith lower L q).
Proof.
  intros Hin Hq. unfold filteredCustomersWith. apply filter_In. split; [exact Hin|].
  rewrite Hq, includes_refl. reflexivity.
Qed.

Lemma search_full_name_any_case_witness : In ana (filteredCustomers [ana; bob] "aNA").
Proof.
  apply (search_full_name_any_case toLowerCase [ana; bob] ana "aNA");
    [left; reflexivity | reflexivity].
Defined.

(** X2. Whatever lowering function the host provides, typing further
    characters narrows the result whenever the lowering of the longer
    query is the lowering of [q] followed by that of the added characters
    (as it is for ASCII text): every record shown for [q ++ more] was
    already shown for [q].  The result of any query is drawn from the
    list. *)
Theorem search_narrows (lower : string -> string)
  (L : list Customer.t) (q more : string) :
  lower (q ++ more) = lower q ++ lower more ->
  incl (filteredCustomersWith lower L (q ++ more)) (filteredCustomersWith lower L q) /\
  incl (filteredCustomersWith lower L q) L.
Proof.
  intros Happ.
  unfold filteredCustomersWith. split; intros c Hc; apply filter_In in Hc;
    destruct Hc as [Hin Hm]; [|exact Hin].
  apply filter_In. split; [exact Hin|].
  apply orb_true_iff in Hm. apply orb_true_iff. destruct Hm as [Hm|Hm].
  - left. rewrite Happ in Hm. eapply includes_app_l. exact Hm.
  - right. eapply includes_app_l. exact Hm.
Qed.

Lemma search_narrows_witness :
  incl (filteredCustomers [ana; bob] ("a" ++ "n")) (filteredCustomers [ana; bob] "a").
Proof.
  exact (proj1 (search_narrows toLowerCase [ana; bob] "a" "n"
                  (toLowerCase_app "a" "n"))).
Defined.

(** ** CSV export: properties *)

Lemma count_char_app (sep : ascii) (a b : string) :
  count_char sep (a ++ b) = count_char sep a + count_char sep b.
Proof. induction a as [|c a IH]; simpl; [reflexivity|]. rewrite IH. lia. Qed.

Lemma split_not_nil (sep : ascii) (s : string) : split sep s <> [].
Proof.
  destruct s as [|c s]; simpl; [discriminate|].
  destruct (Ascii.eqb c sep); [discriminate|].
  destruct (split sep s); discriminate.
Qed.

Lemma split_length (sep : ascii) (s : string) :
  List.length (split sep s) = S (count_char sep s).
Proof.
  induction s as [|c s IH]; simpl; [reflexivity|].
  destruct (Ascii.eqb c sep); simpl; [rewrite IH; reflexivity|].
  destruct (split sep s) as [|h t] eqn:E; [destruct (split_not_nil _ _ E)|].
  simpl in *. exact IH.
Qed.

Lemma split_clean (sep : ascii) (s : string) :
  count_char sep s = 0 -> split sep s = [s].
Proof.
  induction s as [|c s IH]; simpl; intros H; [reflexivity|].
  destruct (Ascii.eqb c sep); [discriminate H|].
  rewrite (IH H). reflexivity.
Qed.

Lemma split_app_sep (sep : ascii) (a b : string) :
  count_char sep a = 0 -> split sep (a ++ String sep b) = a :: split sep b.
Proof.
  induction a as [|c a IH]; simpl; intros H.
  - rewrite Ascii.eqb_refl. reflexivity.
  - destruct (Ascii.eqb c sep); [discriminate H|].
    rewrite (IH H). reflexivity.
Qed.

Lemma split_join (sep : ascii) (l : list string) :
  l <> [] ->
  Forall (fun x => count_char sep x = 0) l ->
  split sep (join (String sep "") l) = l.
Proof.
  induction l as [|x l IH]; intros Hne Hall; [contradiction|].
  inversion Hall as [|? ? Hx Hl]; subst.
  destruct l as [|y l]; [apply split_clean; exact Hx|].
  change (join (String sep "") (x :: y :: l))
    with (x ++ String sep (join (String sep "") (y :: l))).
  rewrite (split_app_sep _ _ _ Hx), IH; [reflexivity|discriminate|exact Hl].
Qed.

Lemma count_char_join (sep c : ascii) (l : list string) :
  sep <> c ->
  Forall (fun x => count_char c x = 0) l ->
  count_char c (join (String sep "") l) = 0.
Proof.
  intros Hsc. induction l as [|x l IH]; intros Hall; [reflexivity|].
  inversion Hall as [|? ? Hx Hl]; subst.
  destruct l as [|y l]; [exact Hx|].
  change (join (String sep "") (x :: y :: l))
    with (x ++ String sep (join (String sep "") (y :: l))).
  rewrite count_char_app. cbn [count_char].
  destruct (Ascii.eqb_spec sep c) as [E|_]; [contradiction|].
  rewrite Hx, (IH Hl). reflexivity.
Qed.

Example export_scenario :
  csvContent [ana]
  = BOM ++ "Nome,Telefone,E-mail,Status,Data Cadastro" ++ String NEWLINE ""
        ++ "Ana,11999,ana@x.io,ativo,2024-01-01".
Proof. reflexivity. Qed.

(** X3. When no exported cell contains a comma or a line break, the file
    reads back exactly: after the byte order mark, splitting on line breaks
    and then on commas gives the header row followed by one five-cell row
    per customer, in list order. *)
Theorem csv_round_trip (L : list Customer.t) :
  Forall (fun c => Forall plain_cell (csv_row c)) L ->
  exists body,
    csvContent L = BOM ++ body /\
    map (split COMMA) (split NEWLINE body) = CSV_HEADERS :: map csv_row L.
Proof.
  intros Hplain. eexists. split; [reflexivity|].
  assert (Hrows : Forall (fun row => row <> [] /\ Forall plain_cell row)
                         (CSV_HEADERS :: map csv_row L)).
  { constructor.
    - split; [discriminate | repeat constructor].
    - apply Forall_map. eapply Forall_impl; [|exact Hplain].
      intros c Hc. split; [discriminate | exact Hc]. }
  remember (CSV_HEADERS :: map csv_row L) as rows eqn:Erows.
  assert (Hne : rows <> []) by (subst rows; discriminate).
  clear Erows Hplain.
  rewrite split_join.
  - rewrite map_map. rewrite <- (map_id rows) at 2.
    apply map_ext_in. intros row Hin.
    rewrite Forall_forall in Hrows. destruct (Hrows row Hin) as [Hrow Hcells].
    apply split_join; [exact Hrow|].
    eapply Forall_impl; [|exact Hcells]. intros x [Hx _]. exact Hx.
  - destruct rows; [contradiction|discriminate].
  - apply Forall_map. eapply Forall_impl; [|exact Hrows].
    intros row [_ Hrow]. apply count_char_join.
    + intros E. discriminate E.
    + eapply Forall_impl; [|exact Hrow]. intros x [_ Hx]. exact Hx.
Qed.

Lemma csv_round_trip_witness :
  exists body,
    csvContent [ana; bob] = BOM ++ body /\
    map (split COMMA) (split NEWLINE body)
    = CSV_HEADERS :: map csv_row [ana; bob].
Proof.
  apply (csv_round_trip [ana; bob]).
  repeat constructor.
Defined.

(** X4. Cells are written without escaping: read back, a customer's line
    has five cells plus one for every comma held in its name, phone,
    e-mail or registration date. *)
Theorem csv_row_cells (c : Customer.t) :
  List.length (split COMMA (join (String COMMA "") (csv_row c)))
  = 5 + count_char COMMA (Customer.name c)
      + count_char COMMA (Customer.phone c)
      + count_char COMMA (Customer.email c)
      + count_char COMMA (Customer.registration_date c).
Proof.
  rewrite split_length. unfold csv_row.
  cbn [join]. rewrite !count_char_app. cbn [count_char].
  replace (Ascii.eqb COMMA COMMA) with true by reflexivity.
  destruct (Customer.status c); cbn; lia.
Qed.

Example export_filename :
  option_map Download.filename
    (match fst (exportCSV "2026-11-02T10:15:00.000Z" dashboard) with
     | Ret f => f
     | Throw _ => None
     end)
  = Some "clientes_export_2026-11-02.csv".
Proof. reflexivity. Qed.

(** X5. [exportCSV] hands over the whole in-memory list, whatever the
    search box holds, in a file named after the date part of the current
    ISO timestamp, and shows a success notification; on an empty list it
    hands over nothing and shows an error notification.  In both cases it
    issues no call and leaves the list, the session and the busy flag as
    they were. *)
Theorem exportCSV_outcome (st : AppState) (date time : string) :
  count_char (ascii_of_nat 84) date = 0 ->
  (customers st = [] ->
     fst (exportCSV (date ++ String (ascii_of_nat 84) time) st) = Ret None /\
     notification (snd (exportCSV (date ++ String (ascii_of_nat 84) time) st))
     = Some (Notification.mk "Não há dados para exportar." error)) /\
  (customers st <> [] ->
     fst (exportCSV (date ++ String (ascii_of_nat 84) time) st)
     = Ret (Some (Download.mk (csvContent (customers st))
                              "text/csv;charset=utf-8;"
                              ("clientes_export_" ++ date ++ ".csv"))) /\
     notification (snd (exportCSV (date ++ String (ascii_of_nat 84) time) st))
     = Some (Notification.mk "CSV gerado com sucesso." success)) /\
  trace (snd (exportCSV (date ++ String (ascii_of_nat 84) time) st)) = trace st /\
  customers (snd (exportCSV (date ++ String (ascii_of_nat 84) time) st)) = customers st /\
  auth (snd (exportCSV (date ++ String (ascii_of_nat 84) time) st)) = auth st /\
  loading (snd (exportCSV (date ++ String (ascii_of_nat 84) time) st)) = loading st.
Proof.
  intros Hdate. unfold exportCSV. run_handler.
  rewrite (split_app_sep _ _ _ Hdate).
  destruct (customers st) as [|c l] eqn:Hc; simpl.
  - split; [intros _; split; reflexivity|].
    split; [intros H; contradiction|]. repeat split; try reflexivity; exact Hc.
  - split; [intros H; discriminate H|].
    split; [intros _; split; reflexivity|]. repeat split; try reflexivity; exact Hc.
Qed.

Lemma exportCSV_outcome_witness :
  fst (exportCSV ("2026-11-02" ++ String (ascii_of_nat 84) "10:15:00.000Z")
                 (with_search "zzz" dashboard))
  = Ret (Some (Download.mk (csvContent [ana; bob]) "text/csv;charset=utf-8;"
                           "clientes_export_2026-11-02.csv")) /\
  fst (exportCSV ("2026-11-02" ++ String (ascii_of_nat 84) "10:15:00.000Z") initialState)
  = Ret None.
Proof.
  destruct (exportCSV_outcome (with_search "zzz" dashboard) "2026-11-02" "10:15:00.000Z"
              eq_refl) as (_ & Hfull & _).
  destruct (exportCSV_outcome initialState "2026-11-02" "10:15:00.000Z" eq_refl)
    as (Hempty & _).
  split.
  - apply Hfull. discriminate.
  - apply Hempty. reflexivity.
Defined.

(** ** Session store: further properties *)

(** X6. Once the effect is cleaned up ([mounted] false) the session is out
    of reach: every auth event is ignored without any call, and startup
    initialization, whatever the session query answers, fetches no profile
    and leaves the session and the customer list untouched. *)
Theorem unmounted_is_inert (env : Services) (st : AppState)
  (event : AuthChangeEvent) (session : option Session.t) :
  mounted st = false ->
  onAuthStateChange env event session st = (Ret tt, st) /\
  fst (initializeAuth env st) = Ret tt /\
  auth (snd (initializeAuth env st)) = auth st /\
  customers (snd (initializeAuth env st)) = customers st /\
  calls_of (trace (snd (initializeAuth env st))) = (calls_of (trace st) ++ [GetSession])%list.
Proof.
  intros Hm. split.
  - unfold onAuthStateChange. run_handler. rewrite Hm. reflexivity.
  - assert (Hcalls : forall b, calls_of (trace st ++ [Call GetSession b])
                               = (calls_of (trace st) ++ [GetSession])%list).
    { intros b. induction (trace st) as [|e t IH]; simpl; [reflexivity|].
      destruct e; simpl; rewrite ?IH; reflexivity. }
    unfold initializeAuth. run_handler.
    destruct (unmounted_during env GetSession);
      destruct (supabase_getSession env) as [session'|e]; simpl; rewrite ?Hm; simpl;
      try (destruct (session_user session'); simpl);
      repeat split; try reflexivity; apply Hcalls.
Qed.

Lemma unmounted_is_inert_witness :
  onAuthStateChange healthy SIGNED_OUT None (with_mounted false dashboard)
  = (Ret tt, with_mounted false dashboard) /\
  auth (snd (initializeAuth healthy (with_mounted false initialState)))
  = auth initialState.
Proof.
  destruct (unmounted_is_inert healthy (with_mounted false dashboard) SIGNED_OUT None
              eq_refl) as (Hev & _).
  destruct (unmounted_is_inert healthy (with_mounted false initialState) SIGNED_OUT None
              eq_refl) as (_ & _ & Ha & _).
  split; [exact Hev | exact Ha].
Defined.

(** X7. The [mounted] guard of startup is read once, before the profile
    fetch.  If the component is unmounted while the profile is being
    fetched, a successful fetch still writes the logged-in state, whereas a
    failed fetch, whose handler reads the guard again, writes nothing. *)
Theorem initializeAuth_unmount_during_profile (env : Services) (st : AppState)
  (s : Session.t) (u : User.t) :
  mounted st = true ->
  supabase_getSession env = Resolved (Some s) ->
  Session.user s = Some u ->
  unmounted_during env GetSession = false ->
  unmounted_during env (GetProfile (User.id u)) = true ->
  mounted (snd (initializeAuth env st)) = false /\
  (forall p, authService_getProfile env (User.id u) = Resolved p ->
             auth (snd (initializeAuth env st)) = AuthState.mk true (Some p) false) /\
  (forall e, authService_getProfile env (User.id u) = Rejected e ->
             auth (snd (initializeAuth env st)) = auth st).
Proof.
  intros Hm Hs Hu Hu1 Hu2. unfold initializeAuth. run_handler.
  rewrite Hs, Hu1. simpl. rewrite Hu, Hm. simpl. rewrite Hu2.
  destruct (authService_getProfile env (User.id u)) as [p|e]; simpl;
    (split; [reflexivity|]); split; intros x Hx;
    try discriminate Hx; try reflexivity.
  injection Hx as ->. reflexivity.
Qed.

Lemma initializeAuth_unmount_during_profile_witness :
  auth (snd (initializeAuth (unmounts_while_profile_loads healthy) initialState))
  = AuthState.mk true (Some acme) false /\
  auth (snd (initializeAuth (unmounts_while_profile_loads profile_down) initialState))
  = auth initialState.
Proof.
  destruct (initializeAuth_unmount_during_profile
              (unmounts_while_profile_loads healthy) initialState
              (Session.mk (Some (User.mk "t1"))) (User.mk "t1")
              eq_refl eq_refl eq_refl eq_refl eq_refl) as (_ & Hok & _).
  destruct (initializeAuth_unmount_during_profile
              (unmounts_while_profile_loads profile_down) initialState
              (Session.mk (Some (User.mk "t1"))) (User.mk "t1")
              eq_refl eq_refl eq_refl eq_refl eq_refl) as (_ & _ & Hko).
  split; [exact (Hok acme eq_refl) | exact (Hko network_error eq_refl)].
Defined.

Lemma calls_of_app (t1 t2 : list Effect) :
  calls_of (t1 ++ t2) = (calls_of t1 ++ calls_of t2)%list.
Proof.
  induction t1 as [|e t IH]; simpl; [reflexivity|].
  destruct e; simpl; rewrite ?IH; reflexivity.
Qed.

(** X8. A SIGNED_IN event carrying a user, on the live subscription,
    fetches that user's profile once and never throws: the session becomes
    logged in with the fetched profile, or logged in with no profile when
    the fetch fails.  The handler itself leaves the customer list alone. *)
Theorem signed_in_outcome (env : Services) (st : AppState)
  (session : option Session.t) (u : User.t) :
  mounted st = true ->
  session_user session = Some u ->
  fst (onAuthStateChange env SIGNED_IN session st) = Ret tt /\
  calls_of (trace (snd (onAuthStateChange env SIGNED_IN session st)))
  = (calls_of (trace st) ++ [GetProfile (User.id u)])%list /\
  customers (snd (onAuthStateChange env SIGNED_IN session st)) = customers st /\
  (forall p, authService_getProfile env (User.id u) = Resolved p ->
     auth (snd (onAuthStateChange env SIGNED_IN session st))
     = AuthState.mk true (Some p) false) /\
  (forall e, authService_getProfile env (User.id u) = Rejected e ->
     auth (snd (onAuthStateChange env SIGNED_IN session st))
     = AuthState.mk true None false).
Proof.
  intros Hm Hu. unfold onAuthStateChange. run_handler. rewrite Hm, Hu. simpl.
  env_cases; rewrite calls_of_app; simpl;
    repeat split; try reflexivity; intros x Hx; try discriminate Hx;
    injection Hx as ->; reflexivity.
Qed.

Lemma signed_in_outcome_witness :
  auth (snd (onAuthStateChange healthy SIGNED_IN
               (Some (Session.mk (Some (User.mk "t1")))) initialState))
  = AuthState.mk true (Some acme) false /\
  auth (snd (onAuthStateChange profile_down SIGNED_IN
               (Some (Session.mk (Some (User.mk "t1")))) initialState))
  = AuthState.mk true None false.
Proof.
  destruct (signed_in_outcome healthy initialState
              (Some (Session.mk (Some (User.mk "t1")))) (User.mk "t1")
              eq_refl eq_refl) as (_ & _ & _ & Hok & _).
  destruct (signed_in_outcome profile_down initialState
              (Some (Session.mk (Some (User.mk "t1")))) (User.mk "t1")
              eq_refl eq_refl) as (_ & _ & _ & _ & Hko).
  split; [exact (Hok acme eq_refl) | exact (Hko network_error eq_refl)].
Defined.

(** X9. Startup with no usable session (no session, a session without a
    user, or a session query that throws) ends logged out with the
    initializing flag cleared and without fetching any profile; startup
    with a session whose profile fetch succeeds ends logged in with that
    profile. *)
Theorem initializeAuth_outcomes (env : Services) (st : AppState) :
  mounted st = true ->
  unmounted_during env GetSession = false ->
  ((forall s, supabase_getSession env = Resolved s -> session_user s = None) ->
     auth (snd (initializeAuth env st)) = AuthState.mk false None false /\
     calls_of (trace (snd (initializeAuth env st)))
     = (calls_of (trace st) ++ [GetSession])%list) /\
  (forall s u p,
     supabase_getSession env = Resolved s ->
     session_user s = Some u ->
     authService_getProfile env (User.id u) = Resolved p ->
     auth (snd (initializeAuth env st)) = AuthState.mk true (Some p) false /\
     calls_of (trace (snd (initializeAuth env st)))
     = (calls_of (trace st) ++ [GetSession; GetProfile (User.id u)])%list).
Proof.
  intros Hm Hu. unfold initializeAuth. run_handler. rewrite Hu.
  destruct (supabase_getSession env) as [s0|e0]; simpl; rewrite Hm.
  - split.
    + intros Hnone. rewrite (Hnone s0 eq_refl). simpl.
      rewrite calls_of_app. split; reflexivity.
    + intros s u p Hs Hsu Hp. injection Hs as <-. rewrite Hsu. simpl. rewrite Hp.
      destruct (unmounted_during env (GetProfile (User.id u))); simpl;
        rewrite !calls_of_app, <- app_assoc; split; reflexivity.
  - split.
    + intros _. simpl. rewrite calls_of_app. split; reflexivity.
    + intros s u p Hs. discriminate Hs.
Qed.

Lemma initializeAuth_outcomes_witness :
  auth (snd (initializeAuth healthy initialState)) = AuthState.mk true (Some acme) false.
Proof.
  destruct (initializeAuth_outcomes healthy initialState eq_refl eq_refl) as (_ & Hok).
  exact (proj1 (Hok (Some (Session.mk (Some (User.mk "t1")))) (User.mk "t1") acme
                    eq_refl eq_refl eq_refl)).
Defined.

(** X10. Auth events reach the session and the customer list only: for
    every event, on every state, the search text, the form and the record
    under edit, the auth form and its mode, the busy flag, the notification
    and its timers are left as they were.  In particular a sign-out neither
    closes an open form nor releases the busy flag. *)
Theorem auth_events_frame (env : Services) (st : AppState)
  (event : AuthChangeEvent) (session : option Session.t) :
  search (snd (onAuthStateChange env event session st)) = search st /\
  showForm (snd (onAuthStateChange env event session st)) = showForm st /\
  editingCustomer (snd (onAuthStateChange env event session st)) = editingCustomer st /\
  authMode (snd (onAuthStateChange env event session st)) = authMode st /\
  authForm (snd (onAuthStateChange env event session st)) = authForm st /\
  loading (snd (onAuthStateChange env event session st)) = loading st /\
  notification (snd (onAuthStateChange env event session st)) = notification st /\
  timers (snd (onAuthStateChange env event session st)) = timers st.
Proof.
  unfold onAuthStateChange. run_handler.
  destruct (mounted st); simpl; [|repeat split; reflexivity].
  destruct event; destruct (session_user session); simpl;
    env_cases; repeat split; reflexivity.
Qed.

(** ** Customer synchronisation: properties *)

Lemma deps_eqb_refl (d : bool * option string) : deps_eqb d d = true.
Proof.
  destruct d as [b [x|]]; unfold deps_eqb; simpl;
    rewrite Bool.eqb_reflx, ?String.eqb_refl; reflexivity.
Qed.

Lemma loadCustomers_cases (env : Services) (st : AppState) (p : UserProfile.t) :
  AuthState.profile (auth st) = Some p ->
  fst (loadCustomers env st) = Ret tt /\
  calls_of (trace (snd (loadCustomers env st)))
  = (calls_of (trace st) ++ [FetchAll (UserProfile.id p)])%list /\
  loading (snd (loadCustomers env st)) = loading st /\
  auth (snd (loadCustomers env st)) = auth st /\
  (forall l, customerService_fetchAll env (UserProfile.id p) = Resolved l ->
     customers (snd (loadCustomers env st)) = l /\
     notification (snd (loadCustomers env st)) = notification st) /\
  (forall e, customerService_fetchAll env (UserProfile.id p) = Rejected e ->
     customers (snd (loadCustomers env st)) = customers st /\
     notification (snd (loadCustomers env st))
     = Some (Notification.mk "Falha ao carregar lista de clientes." error)).
Proof.
  intros Hp. unfold loadCustomers. run_handler. rewrite Hp. simpl.
  env_cases; rewrite calls_of_app; simpl;
    repeat split; try reflexivity; congruence.
Qed.

(** X11. [loadCustomers] with a profile loaded asks once for the list of
    that profile's tenant and never throws.  A successful answer replaces
    the whole in-memory list; a failure leaves the list as it was and
    raises an error notification.  The busy flag and the session are not
    touched either way. *)
Theorem loadCustomers_outcome (env : Services) (st : AppState) (p : UserProfile.t) :
  AuthState.profile (auth st) = Some p ->
  fst (loadCustomers env st) = Ret tt /\
  calls_of (trace (snd (loadCustomers env st)))
  = (calls_of (trace st) ++ [FetchAll (UserProfile.id p)])%list /\
  loading (snd (loadCustomers env st)) = loading st /\
  auth (snd (loadCustomers env st)) = auth st /\
  (forall l, customerService_fetchAll env (UserProfile.id p) = Resolved l ->
     customers (snd (loadCustomers env st)) = l /\
     notification (snd (loadCustomers env st)) = notification st) /\
  (forall e, customerService_fetchAll env (UserProfile.id p) = Rejected e ->
     customers (snd (loadCustomers env st)) = customers st /\
     notification (snd (loadCustomers env st))
     = Some (Notification.mk "Falha ao carregar lista de clientes." error)).
Proof.
  intros Hp. unfold loadCustomers. run_handler. rewrite Hp. simpl.
  env_cases; rewrite calls_of_app; simpl;
    repeat split; try reflexivity; congruence.
Qed.

Lemma loadCustomers_outcome_witness :
  customers (snd (loadCustomers healthy (with_customers (fun _ => [bob]) dashboard)))
  = [ana; bob] /\
  customers (snd (loadCustomers persistence_down dashboard)) = [ana; bob] /\
  notification (snd (loadCustomers persistence_down dashboard))
  = Some (Notification.mk "Falha ao carregar lista de clientes." error).
Proof.
  destruct (loadCustomers_outcome healthy (with_customers (fun _ => [bob]) dashboard)
              acme eq_refl) as (_ & _ & _ & _ & Hok & _).
  destruct (loadCustomers_outcome persistence_down dashboard acme eq_refl)
    as (_ & _ & _ & _ & _ & Hko).
  split; [exact (proj1 (Hok [ana; bob] eq_refl))|].
  exact (Hko network_error eq_refl).
Defined.

Lemma token_refreshed_identity (env : Services) (st : AppState)
  (session : option Session.t) (p : UserProfile.t) :
  AuthState.isLoggedIn (auth st) = true ->
  AuthState.profile (auth st) = Some p ->
  onAuthStateChange env TOKEN_REFRESHED session st = (Ret tt, st).
Proof.
  intros Hin Hp.
  assert (Hsame : with_auth
                    (fun prev => AuthState.mk true (AuthState.profile prev)
                                              (AuthState.loading prev)) st = st).
  { apply with_auth_same. destruct (auth st) as [i q l]. simpl in *.
    rewrite Hin. reflexivity. }
  unfold onAuthStateChange. run_handler.
  destruct (mounted st); simpl; [|reflexivity].
  destruct (session_user session); simpl; unfold modify; rewrite ?Hsame; reflexivity.
Qed.

(** X12. A token refresh causes no reload: on a state logged in with a
    loaded profile, the TOKEN_REFRESHED event together with the render it
    causes leaves the whole state as it was and issues no call. *)
Theorem token_refresh_no_reload (env : Services) (st : AppState)
  (session : option Session.t) (p : UserProfile.t) :
  AuthState.isLoggedIn (auth st) = true ->
  AuthState.profile (auth st) = Some p ->
  then_render env (onAuthStateChange env TOKEN_REFRESHED session) st = (Ret tt, st).
Proof.
  intros Hin Hp. unfold then_render.
  rewrite (token_refreshed_identity env st session p Hin Hp).
  rewrite deps_eqb_refl. reflexivity.
Qed.

Lemma token_refresh_no_reload_witness :
  then_render healthy
    (onAuthStateChange healthy TOKEN_REFRESHED (Some (Session.mk (Some (User.mk "t1")))))
    dashboard
  = (Ret tt, dashboard).
Proof.
  exact (token_refresh_no_reload healthy dashboard
           (Some (Session.mk (Some (User.mk "t1")))) acme eq_refl eq_refl).
Defined.

Lemma deps_eqb_eq (a b : bool * option string) : deps_eqb a b = true <-> a = b.
Proof.
  destruct a as [x sa], b as [y sb]. unfold deps_eqb; simpl. split.
  - intros H. apply andb_true_iff in H. destruct H as [H1 H2].
    apply Bool.eqb_prop in H1. subst y.
    destruct sa, sb; try discriminate H2;
      [apply String.eqb_eq in H2; subst|]; reflexivity.
  - intros H. injection H as -> ->. rewrite Bool.eqb_reflx.
    destruct sb; simpl; [apply String.eqb_refl | reflexivity].
Qed.

Lemma signed_in_resolved (env : Services) (st : AppState)
  (session : option Session.t) (u : User.t) (p : UserProfile.t) :
  mounted st = true ->
  session_user session = Some u ->
  authService_getProfile env (User.id u) = Resolved p ->
  exists s',
    onAuthStateChange env SIGNED_IN session st
    = (Ret tt, with_auth (fun _ => AuthState.mk true (Some p) false) s') /\
    auth s' = auth st /\ customers s' = customers st /\
    notification s' = notification st /\
    trace s' = (trace st ++ [Call (GetProfile (User.id u)) (loading st)])%list.
Proof.
  intros Hm Hu Hp. unfold onAuthStateChange. run_handler.
  rewrite Hm, Hu. simpl. rewrite Hp.
  destruct (unmounted_during env (GetProfile (User.id u))); simpl;
    eexists; (split; [reflexivity|]); repeat split; reflexivity.
Qed.

(** X13. Signing in to a profile other than the one on screen reloads the
    customers: a SIGNED_IN event whose profile fetch succeeds, followed by
    the render it causes, fetches the list of the new profile's tenant.  A
    successful fetch replaces the list; a failed one raises an error
    notification and leaves the previous list in place under the new
    profile. *)
Theorem signed_in_reloads (env : Services) (st : AppState)
  (session : option Session.t) (u : User.t) (p : UserProfile.t) :
  mounted st = true ->
  session_user session = Some u ->
  authService_getProfile env (User.id u) = Resolved p ->
  customerEffect_deps st <> (true, Some (UserProfile.id p)) ->
  auth (snd (then_render env (onAuthStateChange env SIGNED_IN session) st))
  = AuthState.mk true (Some p) false /\
  calls_of (trace (snd (then_render env (onAuthStateChange env SIGNED_IN session) st)))
  = (calls_of (trace st) ++ [GetProfile (User.id u); FetchAll (UserProfile.id p)])%list /\
  (forall l, customerService_fetchAll env (UserProfile.id p) = Resolved l ->
     customers (snd (then_render env (onAuthStateChange env SIGNED_IN session) st)) = l) /\
  (forall e, customerService_fetchAll env (UserProfile.id p) = Rejected e ->
     customers (snd (then_render env (onAuthStateChange env SIGNED_IN session) st))
     = customers st /\
     notification (snd (then_render env (onAuthStateChange env SIGNED_IN session) st))
     = Some (Notification.mk "Falha ao carregar lista de clientes." error)).
Proof.
  intros Hm Hu Hp Hdeps.
  destruct (signed_in_resolved env st session u p Hm Hu Hp)
    as (s' & Hrun & Ha & Hc & Hn & Ht).
  unfold then_render. rewrite Hrun.
  destruct (deps_eqb _ _) eqn:E.
  { apply deps_eqb_eq in E. contradiction. }
  clear E. unfold customerEffect. run_handler.
  set (s1 := with_auth _ s').
  destruct (loadCustomers_cases env s1 p eq_refl) as (_ & Hcalls & _ & Hauth & Hok & Hko).
  split; [rewrite Hauth; reflexivity|].
  split.
  { rewrite Hcalls. subst s1. simpl. rewrite Ht, calls_of_app, <- app_assoc. reflexivity. }
  split.
  - intros l Hl. apply (Hok l Hl).
  - intros e He. destruct (Hko e He) as [H1 H2]. rewrite H1, H2.
    split; [exact Hc | reflexivity].
Qed.

Lemma signed_in_reloads_witness :
  customers
    (snd (then_render healthy
            (onAuthStateChange healthy SIGNED_IN (Some (Session.mk (Some (User.mk "t1")))))
            initialState))
  = [ana; bob].
Proof.
  destruct (signed_in_reloads healthy initialState
              (Some (Session.mk (Some (User.mk "t1")))) (User.mk "t1") acme
              eq_refl eq_refl eq_refl ltac:(discriminate)) as (_ & _ & Hok & _).
  exact (Hok [ana; bob] eq_refl).
Defined.

(** X14. A SIGNED_IN event for the profile already on screen fetches the
    profile again but does not reload the customers: the dependencies of
    the customer effect are unchanged, so the only call is the profile
    fetch and the list stays as it was. *)
Theorem signed_in_same_profile_no_reload (env : Services) (st : AppState)
  (session : option Session.t) (u : User.t) (p0 p : UserProfile.t) :
  mounted st = true ->
  session_user session = Some u ->
  authService_getProfile env (User.id u) = Resolved p ->
  AuthState.isLoggedIn (auth st) = true ->
  AuthState.profile (auth st) = Some p0 ->
  UserProfile.id p0 = UserProfile.id p ->
  auth (snd (then_render env (onAuthStateChange env SIGNED_IN session) st))
  = AuthState.mk true (Some p) false /\
  calls_of (trace (snd (then_render env (onAuthStateChange env SIGNED_IN session) st)))
  = (calls_of (trace st) ++ [GetProfile (User.id u)])%list /\
  customers (snd (then_render env (onAuthStateChange env SIGNED_IN session) st))
  = customers st.
Proof.
  intros Hm Hu Hp Hin Hp0 Hid.
  destruct (signed_in_resolved env st session u p Hm Hu Hp)
    as (s' & Hrun & Ha & Hc & Hn & Ht).
  unfold then_render. rewrite Hrun.
  replace (deps_eqb _ _) with true.
  - simpl. rewrite Ht, calls_of_app. repeat split; try reflexivity. exact Hc.
  - symmetry. apply deps_eqb_eq. unfold customerEffect_deps. simpl.
    rewrite Hin, Hp0. simpl. rewrite Hid. reflexivity.
Qed.

Lemma signed_in_same_profile_no_reload_witness :
  calls_of (trace
    (snd (then_render persistence_down
            (onAuthStateChange persistence_down SIGNED_IN
               (Some (Session.mk (Some (User.mk "t1")))))
            dashboard)))
  = [GetProfile "t1"].
Proof.
  exact (proj1 (proj2 (signed_in_same_profile_no_reload persistence_down dashboard
                         (Some (Session.mk (Some (User.mk "t1")))) (User.mk "t1")
                         acme acme eq_refl eq_refl eq_refl eq_refl eq_refl eq_refl))).
Defined.

(** ** Saving a customer: properties *)

Lemma saved_payloads_app (t1 t2 : list Effect) :
  saved_payloads (t1 ++ t2) = (saved_payloads t1 ++ saved_payloads t2)%list.
Proof.
  induction t1 as [|e t IH]; simpl; [reflexivity|].
  destruct e as [[] ?|]; simpl; rewrite ?IH; reflexivity.
Qed.

Ltac save_cases Hp :=
  unfold handleSaveCustomer, loadCustomers; run_handler; rewrite Hp; simpl;
  repeat first [env_case | rewrite Hp; simpl].

Lemma handleSaveCustomer_trace (env : Services) (st : AppState)
  (formData : FormData.t) (p : UserProfile.t) :
  AuthState.profile (auth st) = Some p ->
  exists rest,
    trace (snd (handleSaveCustomer env formData st))
    = (trace st ++ Call (Save (form_payload p (editingCustomer st) formData)) true :: rest)%list /\
    saved_payloads rest = [].
Proof.
  intros Hp. save_cases Hp; rewrite <- ?app_assoc; simpl;
    eexists; (split; [reflexivity|]); reflexivity.
Qed.

(** X15. With a profile loaded, [handleSaveCustomer] issues exactly one
    save, whatever the services answer.  Its payload takes the tenant and
    the author from the active profile, never marks the record deleted,
    carries the id of the record under edit (none for a new record) and
    the six fields of the form; the save is issued with the busy flag
    set. *)
Theorem handleSaveCustomer_payload (env : Services) (st : AppState)
  (formData : FormData.t) (p : UserProfile.t) :
  AuthState.profile (auth st) = Some p ->
  exists rest,
    trace (snd (handleSaveCustomer env formData st))
    = (trace st ++ Call (Save (form_payload p (editingCustomer st) formData)) true :: rest)%list /\
    saved_payloads rest = [] /\
    Payload.empresa_id (form_payload p (editingCustomer st) formData) = UserProfile.id p /\
    Payload.created_by (form_payload p (editingCustomer st) formData) = UserProfile.id p /\
    Payload.is_deleted (form_payload p (editingCustomer st) formData) = false /\
    Payload.id (form_payload p (editingCustomer st) formData)
    = option_map Customer.id (editingCustomer st).
Proof.
  intros Hp. destruct (handleSaveCustomer_trace env st formData p Hp) as (rest & Ht & Hr).
  exists rest. repeat split; assumption || reflexivity.
Qed.

Lemma handleSaveCustomer_payload_witness :
  saved_payloads (trace (snd (handleSaveCustomer healthy eva_form dashboard)))
  = [Payload.mk None "t1" "Eva" "33777" "eva@x.io" PENDING "2024-03-01" "vip" "t1" false].
Proof.
  destruct (handleSaveCustomer_payload healthy dashboard eva_form acme eq_refl)
    as (rest & Ht & Hrest & _).
  rewrite Ht, saved_payloads_app. simpl. rewrite Hrest. reflexivity.
Defined.

(** X16. When the save is rejected nothing is applied: no reload is
    issued, the customer list, the open form and the record under edit
    stay as they were, an error notification is raised, the busy flag is
    released and nothing is thrown. *)
Theorem handleSaveCustomer_rejected (env : Services) (st : AppState)
  (formData : FormData.t) (p : UserProfile.t) (e : JsError.t) :
  AuthState.profile (auth st) = Some p ->
  customerService_save env (form_payload p (editingCustomer st) formData) = Rejected e ->
  fst (handleSaveCustomer env formData st) = Ret tt /\
  calls_of (trace (snd (handleSaveCustomer env formData st)))
  = (calls_of (trace st) ++ [Save (form_payload p (editingCustomer st) formData)])%list /\
  customers (snd (handleSaveCustomer env formData st)) = customers st /\
  showForm (snd (handleSaveCustomer env formData st)) = showForm st /\
  editingCustomer (snd (handleSaveCustomer env formData st)) = editingCustomer st /\
  notification (snd (handleSaveCustomer env formData st))
  = Some (Notification.mk "Erro ao salvar no servidor." error) /\
  loading (snd (handleSaveCustomer env formData st)) = false.
Proof.
  intros Hp Hs. unfold form_payload in Hs.
  unfold handleSaveCustomer, loadCustomers; run_handler; rewrite Hp; simpl.
  rewrite Hs. env_cases; rewrite calls_of_app; repeat split; reflexivity.
Qed.

Lemma handleSaveCustomer_rejected_witness :
  customers (snd (handleSaveCustomer persistence_down eva_form
                    (with_showForm true dashboard))) = [ana; bob] /\
  showForm (snd (handleSaveCustomer persistence_down eva_form
                   (with_showForm true dashboard))) = true.
Proof.
  destruct (handleSaveCustomer_rejected persistence_down (with_showForm true dashboard)
              eva_form acme network_error eq_refl eq_refl)
    as (_ & _ & Hc & Hf & _).
  split; [exact Hc | exact Hf].
Defined.

(** X17. When the save is accepted the list is reloaded for the active
    tenant, the form is closed, the record under edit is dropped, the busy
    flag is released and a success notification is shown.  The list
    becomes what the reload returns; if the reload fails the list keeps
    its previous content, and the success notification is still the one
    displayed. *)
Theorem handleSaveCustomer_accepted (env : Services) (st : AppState)
  (formData : FormData.t) (p : UserProfile.t) (u : unit) :
  AuthState.profile (auth st) = Some p ->
  customerService_save env (form_payload p (editingCustomer st) formData) = Resolved u ->
  fst (handleSaveCustomer env formData st) = Ret tt /\
  calls_of (trace (snd (handleSaveCustomer env formData st)))
  = (calls_of (trace st)
     ++ [Save (form_payload p (editingCustomer st) formData);
         FetchAll (UserProfile.id p)])%list /\
  showForm (snd (handleSaveCustomer env formData st)) = false /\
  editingCustomer (snd (handleSaveCustomer env formData st)) = None /\
  notification (snd (handleSaveCustomer env formData st))
  = Some (Notification.mk "Alterações salvas com sucesso." success) /\
  loading (snd (handleSaveCustomer env formData st)) = false /\
  (forall l, customerService_fetchAll env (UserProfile.id p) = Resolved l ->
     customers (snd (handleSaveCustomer env formData st)) = l) /\
  (forall e, customerService_fetchAll env (UserProfile.id p) = Rejected e ->
     customers (snd (handleSaveCustomer env formData st)) = customers st).
Proof.
  intros Hp Hs. unfold form_payload in Hs.
  unfold handleSaveCustomer, loadCustomers; run_handler; rewrite Hp; simpl.
  rewrite Hs.
  repeat first [env_case | rewrite Hp; simpl];
    rewrite !calls_of_app, <- ?app_assoc; simpl;
    repeat split; try reflexivity; congruence.
Qed.

Lemma handleSaveCustomer_accepted_witness :
  customers (snd (handleSaveCustomer healthy eva_form
                    (with_customers (fun _ => [bob]) dashboard))) = [ana; bob] /\
  showForm (snd (handleSaveCustomer healthy eva_form
                   (with_showForm true dashboard))) = false.
Proof.
  destruct (handleSaveCustomer_accepted healthy
              (with_customers (fun _ => [bob]) dashboard) eva_form acme tt
              eq_refl eq_refl) as (_ & _ & _ & _ & _ & _ & Hl & _).
  destruct (handleSaveCustomer_accepted healthy (with_showForm true dashboard)
              eva_form acme tt eq_refl eq_refl) as (_ & _ & Hf & _).
  split; [exact (Hl [ana; bob] eq_refl) | exact Hf].
Defined.

(** ** Deleting a customer: further properties *)

(** X18. Declining the confirmation prompt cancels the deletion: the
    prompt is the only interaction, no call reaches the persistence
    service, and the list, the busy flag and the notification stay as they
    were. *)
Theorem handleDelete_declined (env : Services) (st : AppState) (id : string)
  (p : UserProfile.t) :
  AuthState.profile (auth st) = Some p ->
  window_confirm env DELETE_PROMPT = false ->
  handleDelete env id st = (Ret tt, record_effect (Confirm DELETE_PROMPT) st) /\
  calls_of (trace (snd (handleDelete env id st))) = calls_of (trace st) /\
  customers (snd (handleDelete env id st)) = customers st /\
  loading (snd (handleDelete env id st)) = loading st /\
  notification (snd (handleDelete env id st)) = notification st.
Proof.
  intros Hp Hc. unfold handleDelete. run_handler. rewrite Hp. simpl. rewrite Hc. simpl.
  rewrite calls_of_app, app_nil_r. repeat split; reflexivity.
Qed.

Lemma handleDelete_declined_witness :
  customers (snd (handleDelete decliner "c1" dashboard)) = [ana; bob] /\
  calls_of (trace (snd (handleDelete decliner "c1" dashboard))) = [].
Proof.
  destruct (handleDelete_declined decliner dashboard "c1" acme eq_refl eq_refl)
    as (_ & Hcalls & Hc & _).
  split; [exact Hc | exact Hcalls].
Defined.

Lemma filter_other_ids (id : string) (l : list Customer.t) :
  ~ In id (map Customer.id l) ->
  filter (fun c => negb (String.eqb (Customer.id c) id)) l = l.
Proof.
  intros Hn. apply filter_all_true. intros c Hc.
  destruct (String.eqb_spec (Customer.id c) id) as [E|_]; [|reflexivity].
  exfalso. apply Hn. rewrite <- E. apply in_map. exact Hc.
Qed.

Lemma filter_unique_id (id : string) (l : list Customer.t) :
  NoDup (map Customer.id l) ->
  In id (map Customer.id l) ->
  S (List.length (filter (fun c => negb (String.eqb (Customer.id c) id)) l))
  = List.length l.
Proof.
  induction l as [|c l IH]; simpl; intros Hnd Hin; [contradiction|].
  inversion Hnd as [|? ? Hc Hl]; subst.
  destruct (String.eqb_spec (Customer.id c) id) as [E|N]; simpl.
  - rewrite filter_other_ids; [reflexivity|]. rewrite <- E. exact Hc.
  - f_equal. apply IH; [exact Hl|]. destruct Hin as [Hin|Hin]; [contradiction|exact Hin].
Qed.

(** X19. When the ids of the list are pairwise distinct, a successful
    deletion of a present id removes exactly one record: the list gets
    shorter by one, the id is no longer in it, and the ids stay pairwise
    distinct. *)
Theorem handleDelete_removes_one (env : Services) (st : AppState) (id : string)
  (p : UserProfile.t) (u : unit) :
  AuthState.profile (auth st) = Some p ->
  window_confirm env DELETE_PROMPT = true ->
  customerService_hardDelete env id (UserProfile.id p) = Resolved u ->
  NoDup (map Customer.id (customers st)) ->
  In id (map Customer.id (customers st)) ->
  S (List.length (customers (snd (handleDelete env id st)))) = List.length (customers st) /\
  ~ In id (map Customer.id (customers (snd (handleDelete env id st)))) /\
  NoDup (map Customer.id (customers (snd (handleDelete env id st)))).
Proof.
  intros Hp Hc Hd Hnd Hin.
  assert (Hl : customers (snd (handleDelete env id st))
               = filter (fun c => negb (String.eqb (Customer.id c) id)) (customers st)).
  { unfold handleDelete. run_handler. rewrite Hp. simpl. rewrite Hc. simpl. rewrite Hd.
    env_cases; reflexivity. }
  rewrite Hl. split; [apply filter_unique_id; assumption|]. split.
  - intros H. apply in_map_iff in H. destruct H as (c & Hid & Hc').
    apply filter_In_id in Hc'. destruct Hc' as [_ Hne]. contradiction.
  - clear Hl Hin. induction (customers st) as [|c l IH]; simpl; [constructor|].
    inversion Hnd as [|? ? Hc' Hl']; subst.
    destruct (String.eqb (Customer.id c) id); simpl; [apply IH; exact Hl'|].
    constructor; [|apply IH; exact Hl'].
    intros H. apply Hc'. apply in_map_iff in H. destruct H as (c' & Hid & Hin').
    apply filter_In in Hin'. rewrite <- Hid. apply in_map. apply Hin'.
Qed.

Lemma handleDelete_removes_one_witness :
  S (List.length (customers (snd (handleDelete healthy "c2" dashboard)))) = 2.
Proof.
  refine (proj1 (handleDelete_removes_one healthy dashboard "c2" acme tt
                   eq_refl eq_refl eq_refl _ _)).
  - repeat constructor; simpl; intuition discriminate.
  - right. left. reflexivity.
Defined.

(** ** Auth form and logout: properties *)

(** X20. Submitting the auth form never changes the session by itself:
    whatever the mode, the form content and the answer of the auth service,
    [handleAuth] leaves the session, the customer list, the search text and
    the customer form as they were.  A successful sign-in logs the user in
    only through the SIGNED_IN event that follows. *)
Theorem handleAuth_frame (env : Services) (st : AppState) :
  auth (snd (handleAuth env st)) = auth st /\
  customers (snd (handleAuth env st)) = customers st /\
  search (snd (handleAuth env st)) = search st /\
  showForm (snd (handleAuth env st)) = showForm st /\
  editingCustomer (snd (handleAuth env st)) = editingCustomer st /\
  authForm (snd (handleAuth env st)) = authForm st.
Proof.
  unfold handleAuth. run_handler.
  destruct (loading st); simpl; [repeat split; reflexivity|].
  destruct (authMode st); simpl.
  - env_cases; repeat split; reflexivity.
  - destruct (AuthForm.terms (authForm st)); simpl;
      env_cases; repeat split; reflexivity.
Qed.

(** X21. A login submitted while idle calls sign-in once with the e-mail
    and password of the form.  On success the welcome notification is
    shown; on failure an error notification shows the message of the
    thrown error, or the generic text when the error has no message or an
    empty one.  The form stays in login mode and the busy flag is
    released. *)
Theorem handleAuth_login (env : Services) (st : AppState) :
  loading st = false ->
  authMode st = login ->
  calls_of (trace (snd (handleAuth env st)))
  = (calls_of (trace st)
     ++ [SignIn (AuthForm.email (authForm st)) (AuthForm.password (authForm st))])%list /\
  authMode (snd (handleAuth env st)) = login /\
  loading (snd (handleAuth env st)) = false /\
  (forall u,
     authService_signIn env (AuthForm.email (authForm st)) (AuthForm.password (authForm st))
     = Resolved u ->
     notification (snd (handleAuth env st))
     = Some (Notification.mk "Bem-vindo de volta!" success)) /\
  (forall e,
     authService_signIn env (AuthForm.email (authForm st)) (AuthForm.password (authForm st))
     = Rejected e ->
     exists text,
       notification (snd (handleAuth env st)) = Some (Notification.mk text error) /\
       (forall m, JsError.message e = Some m -> m <> "" -> text = m) /\
       (JsError.message e = None \/ JsError.message e = Some "" ->
        text = "Erro ao processar autenticação.")).
Proof.
  intros Hl Hm. unfold handleAuth. run_handler. rewrite Hl. simpl. rewrite Hm. simpl.
  env_cases; rewrite calls_of_app; simpl;
    (split; [reflexivity|]); (split; [exact Hm|]); (split; [reflexivity|]);
    (split; [intros x Hx; try discriminate Hx; reflexivity|]);
    intros x Hx; try discriminate Hx; injection Hx as <-;
    (eexists; split; [reflexivity|]);
    (split; [intros m Em Hne; rewrite Em; destruct m; [contradiction|reflexivity]
            | intros [Em|Em]; rewrite Em; reflexivity]).
Qed.

Lemma handleAuth_login_witness :
  notification (snd (handleAuth healthy initialState))
  = Some (Notification.mk "Bem-vindo de volta!" success) /\
  notification (snd (handleAuth auth_down initialState))
  = Some (Notification.mk "Erro ao processar autenticação." error).
Proof.
  destruct (handleAuth_login healthy initialState eq_refl eq_refl)
    as (_ & _ & _ & Hok & _).
  destruct (handleAuth_login auth_down initialState eq_refl eq_refl)
    as (_ & _ & _ & _ & Hko).
  split; [exact (Hok tt eq_refl)|].
  destruct (Hko (JsError.mk None) eq_refl) as (text & Hn & _ & Hdef).
  rewrite Hn, (Hdef (or_introl eq_refl)). reflexivity.
Defined.

(** X22. A sign-up submitted while idle with the terms accepted calls the
    auth service once with the four fields of the form.  On success the
    confirmation notification is shown and the form returns to login mode,
    the session staying logged out as it was; on failure the form stays in
    sign-up mode and an error notification is shown.  The busy flag is
    released in both cases. *)
Theorem handleAuth_signup (env : Services) (st : AppState) :
  loading st = false ->
  authMode st = signup ->
  AuthForm.terms (authForm st) = true ->
  calls_of (trace (snd (handleAuth env st)))
  = (calls_of (trace st)
     ++ [SignUp (AuthForm.email (authForm st)) (AuthForm.password (authForm st))
                (AuthForm.companyName (authForm st))
                (AuthForm.responsibleName (authForm st))])%list /\
  loading (snd (handleAuth env st)) = false /\
  AuthState.isLoggedIn (auth (snd (handleAuth env st))) = AuthState.isLoggedIn (auth st) /\
  (forall u,
     authService_signUp env (AuthForm.email (authForm st)) (AuthForm.password (authForm st))
       (AuthForm.companyName (authForm st)) (AuthForm.responsibleName (authForm st))
     = Resolved u ->
     authMode (snd (handleAuth env st)) = login /\
     notification (snd (handleAuth env st))
     = Some (Notification.mk
               "Cadastro realizado! Se o e-mail de confirmação estiver ativo, verifique sua caixa de entrada."
               success)) /\
  (forall e,
     authService_signUp env (AuthForm.email (authForm st)) (AuthForm.password (authForm st))
       (AuthForm.companyName (authForm st)) (AuthForm.responsibleName (authForm st))
     = Rejected e ->
     authMode (snd (handleAuth env st)) = signup /\
     notification (snd (handleAuth env st))
     = Some (Notification.mk
               (or_default (JsError.message e) "Erro ao processar autenticação.") error)).
Proof.
  intros Hl Hm Ht. unfold handleAuth. run_handler.
  rewrite Hl. simpl. rewrite Hm, Ht. simpl.
  env_cases; rewrite calls_of_app; simpl;
    repeat split; try reflexivity; try congruence.
Qed.

Lemma handleAuth_signup_witness :
  authMode (snd (handleAuth healthy
                   (with_authMode signup
                      (with_authForm (AuthForm.mk "a@b.io" "pw" "Acme" "Olga" true)
                                     initialState)))) = login /\
  notification (snd (handleAuth auth_down
                   (with_authMode signup
                      (with_authForm (AuthForm.mk "a@b.io" "pw" "Acme" "Olga" true)
                                     initialState))))
  = Some (Notification.mk "User already registered" error).
Proof.
  destruct (handleAuth_signup healthy
              (with_authMode signup
                 (with_authForm (AuthForm.mk "a@b.io" "pw" "Acme" "Olga" true) initialState))
              eq_refl eq_refl eq_refl) as (_ & _ & _ & Hok & _).
  destruct (handleAuth_signup auth_down
              (with_authMode signup
                 (with_authForm (AuthForm.mk "a@b.io" "pw" "Acme" "Olga" true) initialState))
              eq_refl eq_refl eq_refl) as (_ & _ & _ & _ & Hko).
  split; [exact (proj1 (Hok tt eq_refl))|].
  exact (proj2 (Hko (JsError.mk (Some "User already registered")) eq_refl)).
Defined.

(** X23. Logging out is a two-step affair.  [handleLogout] only calls the
    auth service, with the busy flag set: it leaves the session and the
    customer list as they were and, when the call fails, raises an error
    notification.  The session is closed by the SIGNED_OUT event that
    follows, after which the user is logged out, the list is empty and the
    busy flag is clear. *)
Theorem logout_then_signed_out (env : Services) (st : AppState) :
  mounted st = true ->
  unmounted_during env SignOut = false ->
  fst (handleLogout env st) = Ret tt /\
  trace (snd (handleLogout env st)) = (trace st ++ [Call SignOut true])%list /\
  auth (snd (handleLogout env st)) = auth st /\
  customers (snd (handleLogout env st)) = customers st /\
  (forall e, authService_signOut env = Rejected e ->
     notification (snd (handleLogout env st))
     = Some (Notification.mk "Falha ao sair. Recarregue a página." error)) /\
  auth (snd (onAuthStateChange env SIGNED_OUT None (snd (handleLogout env st))))
  = AuthState.mk false None false /\
  customers (snd (onAuthStateChange env SIGNED_OUT None (snd (handleLogout env st)))) = [] /\
  loading (snd (onAuthStateChange env SIGNED_OUT None (snd (handleLogout env st)))) = false.
Proof.
  intros Hm Hu. unfold handleLogout, onAuthStateChange. run_handler. rewrite Hu.
  destruct (authService_signOut env) as [[]|e]; simpl; rewrite Hm; simpl;
    repeat split; try reflexivity; congruence.
Qed.

Lemma logout_then_signed_out_witness :
  customers (snd (onAuthStateChange healthy SIGNED_OUT None
                    (snd (handleLogout healthy dashboard)))) = [] /\
  customers (snd (handleLogout healthy dashboard)) = [ana; bob].
Proof.
  destruct (logout_then_signed_out healthy dashboard eq_refl eq_refl)
    as (_ & _ & _ & Hc & _ & _ & Hout & _).
  split; [exact Hout | exact Hc].
Defined.

(** ** The customer form: invariant *)

Example edit_then_close :
  editingCustomer (snd (closeForm (snd (openEditForm ana dashboard)))) = None.
Proof. reflexivity. Qed.

Ltac keep_form H :=
  unfold form_consistent in *; simpl; try exact H; try (intros _; reflexivity);
  try discriminate.

(** X24. The form is closed only with no record under edit, and every
    action keeps it so: opening the form for a new or an existing record,
    closing it, saving, deleting, loading, exporting, submitting the auth
    form, logging out, startup and every auth event.  So a form opened by
    an add button never inherits a record left over from an earlier
    edit. *)
Theorem form_consistent_preserved (env : Services) (st : AppState)
  (formData : FormData.t) (id iso : string) (c : Customer.t)
  (event : AuthChangeEvent) (session : option Session.t) :
  form_consistent st ->
  form_consistent (snd (openNewForm st)) /\
  form_consistent (snd (openEditForm c st)) /\
  form_consistent (snd (closeForm st)) /\
  form_consistent (snd (handleSaveCustomer env formData st)) /\
  form_consistent (snd (handleDelete env id st)) /\
  form_consistent (snd (loadCustomers env st)) /\
  form_consistent (snd (exportCSV iso st)) /\
  form_consistent (snd (handleAuth env st)) /\
  form_consistent (snd (handleLogout env st)) /\
  form_consistent (snd (initializeAuth env st)) /\
  form_consistent (snd (onAuthStateChange env event session st)).
Proof.
  intros H.
  split; [keep_form H|].
  split; [keep_form H|].
  split; [keep_form H|].
  split.
  { unfold handleSaveCustomer, loadCustomers. run_handler.
    destruct (AuthState.profile (auth st)) as [p|] eqn:Hp; simpl; [|exact H].
    repeat first [env_case | rewrite Hp; simpl]; keep_form H. }
  split.
  { unfold handleDelete. run_handler.
    destruct (AuthState.profile (auth st)) as [p|]; simpl; [|exact H].
    env_cases; keep_form H. }
  split.
  { unfold loadCustomers. run_handler.
    destruct (AuthState.profile (auth st)) as [p|]; simpl; [|exact H].
    env_cases; keep_form H. }
  split.
  { unfold exportCSV. run_handler.
    destruct (customers st); simpl; keep_form H. }
  split.
  { unfold handleAuth. run_handler.
    destruct (loading st); simpl; [exact H|].
    destruct (authMode st); simpl; [env_cases; keep_form H|].
    destruct (AuthForm.terms (authForm st)); simpl; env_cases; keep_form H. }
  split.
  { unfold handleLogout. run_handler. env_cases; keep_form H. }
  split.
  { unfold initializeAuth. run_handler.
    destruct (mounted st) eqn:Hm;
      env_cases; rewrite ?Hm; simpl;
      try (destruct (session_user _); simpl); env_cases; rewrite ?Hm; simpl;
      keep_form H. }
  unfold onAuthStateChange. run_handler.
  destruct (mounted st); simpl; [|exact H].
  destruct event; destruct (session_user session); simpl; env_cases; keep_form H.
Qed.

Lemma form_consistent_preserved_witness :
  form_consistent (snd (handleSaveCustomer healthy eva_form
                          (snd (openEditForm ana dashboard)))).
Proof.
  assert (H0 : form_consistent (snd (openEditForm ana dashboard)))
    by (intros E; discriminate E).
  exact (proj1 (proj2 (proj2 (proj2
           (form_consistent_preserved healthy (snd (openEditForm ana dashboard))
              eva_form "c1" "" ana SIGNED_OUT None H0))))).
Defined.

(** X25. Create or update is decided by how the form was opened.  From a
    closed form, a save after the add button sends a payload with no id (a
    new record); a save after the edit button of record [c] sends the id
    of [c] (an update of that record).  Either way exactly one save is
    sent. *)
Theorem save_creates_or_updates (env : Services) (st : AppState)
  (formData : FormData.t) (p : UserProfile.t) (c : Customer.t) :
  AuthState.profile (auth st) = Some p ->
  form_consistent st ->
  showForm st = false ->
  saved_payloads (trace (snd (handleSaveCustomer env formData (snd (openNewForm st)))))
  = (saved_payloads (trace st) ++ [form_payload p None formData])%list /\
  Payload.id (form_payload p None formData) = None /\
  saved_payloads (trace (snd (handleSaveCustomer env formData (snd (openEditForm c st)))))
  = (saved_payloads (trace st) ++ [form_payload p (Some c) formData])%list /\
  Payload.id (form_payload p (Some c) formData) = Some (Customer.id c).
Proof.
  intros Hp Hform Hclosed. specialize (Hform Hclosed).
  destruct (handleSaveCustomer_trace env (snd (openNewForm st)) formData p Hp)
    as (r1 & Ht1 & Hr1).
  destruct (handleSaveCustomer_trace env (snd (openEditForm c st)) formData p Hp)
    as (r2 & Ht2 & Hr2).
  rewrite Ht1, Ht2, !saved_payloads_app. simpl. rewrite Hr1, Hr2, Hform.
  repeat split; reflexivity.
Qed.

Lemma save_creates_or_updates_witness :
  map Payload.id
    (saved_payloads (trace (snd (handleSaveCustomer healthy eva_form
                                   (snd (openNewForm dashboard))))))
  = [None] /\
  map Payload.id
    (saved_payloads (trace (snd (handleSaveCustomer healthy eva_form
                                   (snd (openEditForm bob dashboard))))))
  = [Some "c2"].
Proof.
  destruct (save_creates_or_updates healthy dashboard eva_form acme bob
              eq_refl (fun _ => eq_refl) eq_refl) as (Hnew & _ & Hedit & _).
  rewrite Hnew, Hedit. split; reflexivity.
Defined.

(** ** Notification timer: further properties *)

Lemma filter_nil_all {A} (f : A -> bool) (l : list A) :
  filter f l = [] -> filter (fun x => negb (f x)) l = l.
Proof.
  induction l as [|a l IH]; simpl; intros H; [reflexivity|].
  destruct (f a); [discriminate H|]. simpl. rewrite (IH H). reflexivity.
Qed.

Lemma app_not_nil {A} (l : list A) (x : A) : (l ++ [x])%list <> [].
Proof. destruct l; discriminate. Qed.

(** X26. A notification lives at most [NOTIFY_DELAY]: from any state,
    whatever timers are pending, a notification shown now is gone once
    [NOTIFY_DELAY] ms have passed.  With no earlier timer pending it is
    displayed, unchanged, at every instant before that. *)
Theorem notification_lifetime (st : AppState) (m : string) (k : NotificationType)
  (t : nat) :
  (now st + NOTIFY_DELAY <= t ->
   notification (elapse t (showNotify_st m k st)) = None) /\
  (timers st = [] -> t < now st + NOTIFY_DELAY ->
   notification (elapse t (showNotify_st m k st)) = Some (Notification.mk m k)).
Proof.
  unfold elapse, showNotify_st. simpl. split.
  - intros Hle. rewrite filter_app. simpl.
    destruct (Nat.leb_spec (now st + NOTIFY_DELAY) t) as [_|Hlt]; [|lia].
    destruct (filter _ (timers st)); reflexivity.
  - intros Ht Hlt. rewrite Ht. simpl.
    destruct (Nat.leb_spec (now st + NOTIFY_DELAY) t) as [Hle|_]; [lia|]. reflexivity.
Qed.

Lemma notification_lifetime_witness :
  notification (elapse 4000 (showNotify_st "Saved" success initialState)) = None /\
  notification (elapse 3999 (showNotify_st "Saved" success initialState))
  = Some (Notification.mk "Saved" success).
Proof.
  split.
  - apply (proj1 (notification_lifetime initialState "Saved" success 4000)).
    unfold NOTIFY_DELAY. simpl. lia.
  - apply (proj2 (notification_lifetime initialState "Saved" success 3999)).
    + reflexivity.
    + unfold NOTIFY_DELAY. simpl. lia.
Defined.

(** X27. No notification is stuck on screen.  A displayed notification
    always has a pending timer; showing a notification, the passing of
    time and every user action and auth event keep it so; and once every
    pending timer is due, nothing is displayed and no timer is left. *)
Theorem notification_always_scheduled (env : Services) (st : AppState)
  (formData : FormData.t) (id iso m : string) (k : NotificationType) (t : nat)
  (event : AuthChangeEvent) (session : option Session.t) :
  notification_scheduled st ->
  notification_scheduled (showNotify_st m k st) /\
  notification_scheduled (elapse t st) /\
  notification_scheduled (snd (handleAuth env st)) /\
  notification_scheduled (snd (handleSaveCustomer env formData st)) /\
  notification_scheduled (snd (handleDelete env id st)) /\
  notification_scheduled (snd (handleLogout env st)) /\
  notification_scheduled (snd (loadCustomers env st)) /\
  notification_scheduled (snd (exportCSV iso st)) /\
  notification_scheduled (snd (onAuthStateChange env event session st)) /\
  ((forall d, In d (timers st) -> d <= t) ->
   notification (elapse t st) = None /\ timers (elapse t st) = []).
Proof.
  intros H.
  assert (Hshow : forall s x, notification_scheduled (showNotify_st m k s) /\
                              (timers s ++ [x])%list <> []).
  { intros s x. split; [right; apply app_not_nil | apply app_not_nil]. }
  split; [apply Hshow; exact 0|].
  split.
  { unfold notification_scheduled, elapse. simpl.
    destruct (filter (fun d => d <=? t)%nat (timers st)) eqn:E; simpl; [|left; reflexivity].
    rewrite (filter_nil_all _ _ E). exact H. }
  assert (Hkeep : forall s, notification s = notification st -> timers s = timers st ->
                            notification_scheduled s).
  { intros s Hn Ht. unfold notification_scheduled. rewrite Hn, Ht. exact H. }
  split.
  { unfold handleAuth. run_handler.
    destruct (loading st); simpl; [exact H|].
    destruct (authMode st); simpl;
      [|destruct (AuthForm.terms (authForm st)); simpl];
      env_cases; first [right; apply app_not_nil | apply Hkeep; reflexivity]. }
  split.
  { unfold handleSaveCustomer, loadCustomers. run_handler.
    destruct (AuthState.profile (auth st)) as [p|] eqn:Hp; simpl; [|exact H].
    repeat first [env_case | rewrite Hp; simpl];
      first [right; apply app_not_nil | apply Hkeep; reflexivity]. }
  split.
  { unfold handleDelete. run_handler.
    destruct (AuthState.profile (auth st)) as [p|]; simpl; [|exact H].
    env_cases; first [right; apply app_not_nil | apply Hkeep; reflexivity]. }
  split.
  { unfold handleLogout. run_handler.
    env_cases; first [right; apply app_not_nil | apply Hkeep; reflexivity]. }
  split.
  { unfold loadCustomers. run_handler.
    destruct (AuthState.profile (auth st)) as [p|]; simpl; [|exact H].
    env_cases; first [right; apply app_not_nil | apply Hkeep; reflexivity]. }
  split.
  { unfold exportCSV. run_handler.
    destruct (customers st); simpl; right; apply app_not_nil. }
  split.
  { unfold onAuthStateChange. run_handler.
    destruct (mounted st); simpl; [|exact H].
    destruct event; destruct (session_user session); simpl;
      env_cases; apply Hkeep; reflexivity. }
  intros Hdue. unfold elapse. simpl.
  assert (Hall : filter (fun d => d <=? t)%nat (timers st) = timers st).
  { apply filter_all_true. intros d Hd. apply Nat.leb_le. apply Hdue. exact Hd. }
  assert (Hnone : filter (fun d => negb (d <=? t)%nat) (timers st) = []).
  { clear H Hkeep Hall. induction (timers st) as [|d l IH]; simpl; [reflexivity|].
    destruct (Nat.leb_spec d t) as [_|Hlt]; simpl.
    - apply IH. intros d' Hd'. apply Hdue. right. exact Hd'.
    - specialize (Hdue d (or_introl eq_refl)). lia. }
  rewrite Hall, Hnone. split; [|reflexivity].
  destruct (timers st) as [|d l] eqn:Et; simpl; [|reflexivity].
  destruct H as [H|H]; [exact H|contradiction].
Qed.

Lemma notification_always_scheduled_witness :
  notification
    (elapse 4000 (snd (handleDelete persistence_down "c1" dashboard))) = None.
Proof.
  assert (H0 : notification_scheduled dashboard) by (left; reflexivity).
  destruct (notification_always_scheduled persistence_down dashboard eva_form "c1" ""
              "" success 4000 SIGNED_OUT None H0)
    as (_ & _ & _ & _ & Hdel & _).
  destruct (notification_always_scheduled persistence_down
              (snd (handleDelete persistence_down "c1" dashboard)) eva_form "c1" ""
              "" success 4000 SIGNED_OUT None Hdel)
    as (_ & _ & _ & _ & _ & _ & _ & _ & _ & Hclear).
  apply Hclear. simpl. intros d [<-|[]]. unfold NOTIFY_DELAY. lia.
Defined.
